(** * fxconvert-backend: a shallow embedding of [app.py]

    The three Flask handlers of [app.py] ([convert_currency],
    [historical_data], [chatbot]) are embedded as Rocq functions.

    - Python [str] values are Rocq strings; the model is exact for ASCII
      text (the regular expressions of the chatbot only capture ASCII
      letters and digits).
    - Python floats and JSON numbers are exact rationals ([Q]); rounding,
      infinities and NaN are outside the model.
    - Exceptions are the [Raise] case of [outcome].
    - Every [requests.get(...).json()] goes through [call], which records
      the request in a log and asks the [upstream] of the [world].
    - [datetime.date] values are proleptic Gregorian ordinals
      ([date.toordinal()]). *)

From Stdlib Require Import List String Ascii Bool Arith ZArith QArith Lia.
From Stdlib Require Import Sorted Permutation.
Import ListNotations.

Local Open Scope string_scope.
Local Open Scope list_scope.
Local Open Scope nat_scope.

Set Implicit Arguments.

(** ** Python values *)

Inductive pyexn : Type :=
| KeyError
| TypeError
| AttributeError
| ValueError
| ZeroDivisionError
| OverflowError
| RequestException.

Inductive outcome (A : Type) : Type :=
| Ok (a : A)
| Raise (e : pyexn).

Arguments Ok {A} a.
Arguments Raise {A} e.

(** A decoded JSON document, as [json.loads] builds it.  An object is the
    list of its items in insertion order. *)
#[local] Unset Elimination Schemes.
Inductive json : Type :=
| JNull
| JBool (b : bool)
| JNum (q : Q)
| JStr (s : string)
| JArr (l : list json)
| JObj (kv : list (string * json)).
#[local] Set Elimination Schemes.

Fixpoint assoc {V : Type} (key : string) (kv : list (string * V)) : option V :=
  match kv with
  | [] => None
  | (k, v) :: rest => if String.eqb key k then Some v else assoc key rest
  end.

Definition is_zero (q : Q) : bool := Qeq_bool q 0.

(** Truth value of a Python object ([if x], [not x], [x and y]). *)
Definition truthy (v : json) : bool :=
  match v with
  | JNull => false
  | JBool b => b
  | JNum q => negb (is_zero q)
  | JStr s => negb (String.eqb s "")
  | JArr l => match l with [] => false | _ => true end
  | JObj kv => match kv with [] => false | _ => true end
  end.

Fixpoint is_substring (w s : string) : bool :=
  if String.prefix w s then true
  else match s with
       | EmptyString => false
       | String _ s' => is_substring w s'
       end.

Definition json_is_str (key : string) (v : json) : bool :=
  match v with
  | JStr s => String.eqb key s
  | _ => false
  end.

(** [key in v] for a string [key]. *)
Definition py_in (key : string) (v : json) : outcome bool :=
  match v with
  | JObj kv => Ok (match assoc key kv with Some _ => true | None => false end)
  | JArr l => Ok (existsb (json_is_str key) l)
  | JStr s => Ok (is_substring key s)
  | _ => Raise TypeError
  end.

(** [v[key]] for a string [key]. *)
Definition py_getitem (v : json) (key : string) : outcome json :=
  match v with
  | JObj kv => match assoc key kv with
               | Some x => Ok x
               | None => Raise KeyError
               end
  | _ => Raise TypeError
  end.

(** [v.get(key)], defined on dicts only. *)
Definition py_dict_get (v : json) (key : string) : outcome json :=
  match v with
  | JObj kv => match assoc key kv with
               | Some x => Ok x
               | None => Ok JNull
               end
  | _ => Raise AttributeError
  end.

(** [v / a] for a float [a]. *)
Definition py_truediv (v : json) (a : Q) : outcome Q :=
  match v with
  | JNum c => if is_zero a then Raise ZeroDivisionError else Ok (c / a)%Q
  | JBool b => if is_zero a then Raise ZeroDivisionError
               else Ok ((if b then 1 else 0) / a)%Q
  | _ => Raise TypeError
  end.

(** ** Characters and strings *)

Definition code (c : ascii) : nat := nat_of_ascii c.

Definition is_digit (c : ascii) : bool := (48 <=? code c) && (code c <=? 57).
Definition is_lower (c : ascii) : bool := (97 <=? code c) && (code c <=? 122).
Definition is_upper (c : ascii) : bool := (65 <=? code c) && (code c <=? 90).
Definition is_alpha (c : ascii) : bool := is_lower c || is_upper c.

(** [str.isspace] and the class [\s] on ASCII. *)
Definition is_space (c : ascii) : bool :=
  ((9 <=? code c) && (code c <=? 13)) || ((28 <=? code c) && (code c <=? 32)).

Definition upper_char (c : ascii) : ascii :=
  if is_lower c then ascii_of_nat (code c - 32) else c.
Definition lower_char (c : ascii) : ascii :=
  if is_upper c then ascii_of_nat (code c + 32) else c.

Fixpoint smap (f : ascii -> ascii) (s : string) : string :=
  match s with
  | EmptyString => EmptyString
  | String c s' => String (f c) (smap f s')
  end.

Definition upper : string -> string := smap upper_char.
Definition lower : string -> string := smap lower_char.

Fixpoint sall (p : ascii -> bool) (s : string) : bool :=
  match s with
  | EmptyString => true
  | String c s' => p c && sall p s'
  end.

Fixpoint lstrip (s : string) : string :=
  match s with
  | String c s' => if is_space c then lstrip s' else s
  | EmptyString => EmptyString
  end.

Fixpoint rstrip (s : string) : string :=
  match s with
  | String c s' =>
      match rstrip s' with
      | EmptyString => if is_space c then EmptyString else String c EmptyString
      | t => String c t
      end
  | EmptyString => EmptyString
  end.

Definition strip (s : string) : string := rstrip (lstrip s).

(** ** Regular expressions

    The fragment of Python's [re] syntax the three patterns use, matched
    the way [re] does it: by backtracking, greedy repetition first, the
    alternatives of [|] in order. *)

Module Regex.

Inductive cclass : Type :=
| CDigit                (* \d *)
| CSpace                (* \s *)
| CAlpha                (* [a-zA-Z] *)
| CAny                  (* .  (not a newline) *)
| CChar (c : ascii).

Definition in_class (p : cclass) (c : ascii) : bool :=
  match p with
  | CDigit => is_digit c
  | CSpace => is_space c
  | CAlpha => is_alpha c
  | CAny => negb (code c =? 10)
  | CChar d => Ascii.eqb c d
  end.

Inductive regex : Type :=
| Lit (w : string)
| Rep (p : cclass) (lo : nat) (hi : option nat)   (* p{lo,hi}, greedy *)
| Seq (r1 r2 : regex)
| Alt (r1 r2 : regex)
| Opt (r : regex)                                 (* (?:r)? *)
| Group (i : nat) (r : regex).

Definition groups : Type := list (nat * string).

Fixpoint strip_prefix (w s : string) : option string :=
  match w with
  | EmptyString => Some s
  | String a w' =>
      match s with
      | String b s' => if Ascii.eqb a b then strip_prefix w' s' else None
      | EmptyString => None
      end
  end.

Definition can_take (hi : option nat) : bool :=
  match hi with
  | None => true
  | Some h => 0 <? h
  end.

Section Matcher.
Variable R : Type.

(** Greedy [p{lo,hi}]: take as many characters as allowed, then give
    them back one at a time until the continuation succeeds. *)
Fixpoint rep (p : cclass) (lo : nat) (hi : option nat) (s : string)
         (k : string -> option R) : option R :=
  match s with
  | String c s' =>
      if in_class p c && can_take hi then
        match rep p (pred lo) (option_map pred hi) s' k with
        | Some x => Some x
        | None => if lo =? 0 then k s else None
        end
      else if lo =? 0 then k s else None
  | EmptyString => if lo =? 0 then k s else None
  end.

(** The text of [s] in front of its suffix [s']. *)
Definition consumed (s s' : string) : string :=
  String.substring 0 (String.length s - String.length s') s.

Fixpoint rmatch (r : regex) (s : string) (g : groups)
         (k : string -> groups -> option R) : option R :=
  match r with
  | Lit w => match strip_prefix w s with
             | Some s' => k s' g
             | None => None
             end
  | Rep p lo hi => rep p lo hi s (fun s' => k s' g)
  | Seq r1 r2 => rmatch r1 s g (fun s1 g1 => rmatch r2 s1 g1 k)
  | Alt r1 r2 => match rmatch r1 s g k with
                 | Some x => Some x
                 | None => rmatch r2 s g k
                 end
  | Opt r1 => match rmatch r1 s g k with
              | Some x => Some x
              | None => k s g
              end
  | Group i r1 =>
      rmatch r1 s g (fun s' g' => k s' ((i, consumed s s') :: g'))
  end.
End Matcher.

(** [re.search]: the match at the leftmost start position that has one. *)
Fixpoint search (r : regex) (s : string) : option groups :=
  match rmatch r s [] (fun _ g => Some g) with
  | Some g => Some g
  | None => match s with
            | EmptyString => None
            | String _ s' => search r s'
            end
  end.

(** [match.group(i)]. *)
Fixpoint group (i : nat) (g : groups) : string :=
  match g with
  | [] => EmptyString
  | (j, t) :: rest => if i =? j then t else group i rest
  end.

Definition seqs (l : list regex) : regex := fold_right Seq (Lit "") l.
Definition one (p : cclass) : regex := Rep p 1 (Some 1).
Definition star (p : cclass) : regex := Rep p 0 None.
Definition plus (p : cclass) : regex := Rep p 1 None.
Definition exactly (n : nat) (p : cclass) : regex := Rep p n (Some n).

End Regex.
Import Regex.

(** ** The world outside the handlers *)

(** One GET request to the exchange-rate API. *)
Inductive api_call : Type :=
| Latest (amount : Q) (from_currency to_currency : string)
    (* /latest?amount=&from=&to= *)
| Between (start_date end_date : Z) (from_currency to_currency : string)
    (* /{start_date}..{end_date}?from=&to= *)
| OnDate (date : string) (from_currency to_currency : string).
    (* /{date}?from=&to= *)

Record world : Type := {
  py_float : string -> option Q;        (* float(s); None is ValueError *)
  upstream : api_call -> outcome json;  (* requests.get(url, params).json() *)
  today : Z                             (* datetime.now().date() *)
}.

(** Handlers run in a monad that threads the log of upstream requests and
    stops at the first exception. *)
Definition M (A : Type) : Type := list api_call -> outcome A * list api_call.

Definition ret {A : Type} (a : A) : M A := fun log => (Ok a, log).

Definition bind {A B : Type} (m : M A) (f : A -> M B) : M B :=
  fun log =>
    match m log with
    | (Ok a, log') => f a log'
    | (Raise e, log') => (Raise e, log')
    end.

Definition lift {A : Type} (o : outcome A) : M A := fun log => (o, log).

Definition call (w : world) (c : api_call) : M json :=
  fun log => (upstream w c, log ++ [c]).

Notation "x <- m ;; k" := (bind m (fun x => k))
  (at level 61, m at next level, right associativity).

Definition run {A : Type} (m : M A) : outcome A * list api_call := m [].

(** ** Dates *)

Definition MINYEAR_ordinal : Z := 1.           (* date.min.toordinal() *)
Definition MAXYEAR_ordinal : Z := 3652059.     (* date.max.toordinal() *)
Definition epoch_start : Z := 729758.          (* datetime(1999, 1, 4).date() *)

(** [d - timedelta(days=n)]. *)
Definition date_minus_days (d n : Z) : outcome Z :=
  if (999999999 <? Z.abs n)%Z then Raise OverflowError
  else
    let r := (d - n)%Z in
    if ((r <? MINYEAR_ordinal) || (MAXYEAR_ordinal <? r))%Z
    then Raise OverflowError
    else Ok r.

(** ** Request arguments *)

Definition args : Type := list (string * string).

(** [request.args.get(key, default=d, type=str)]. *)
Definition args_get_str (a : args) (key d : string) : string :=
  match assoc key a with
  | Some v => v
  | None => d
  end.

(** [request.args.get(key, type=float)]: a value that [float] rejects
    gives the default, [None]. *)
Definition args_get_float (w : world) (a : args) (key : string) : option Q :=
  match assoc key a with
  | Some v => py_float w v
  | None => None
  end.

Definition response : Type := json * nat.

Definition jsonify (kv : list (string * json)) : json := JObj kv.

Definition opt_num (o : option Q) : json :=
  match o with
  | Some q => JNum q
  | None => JNull
  end.

(** ** /convert *)

Definition convert_currency (w : world) (a : args) : M response :=
  let amount := args_get_float w a "amount" in
  let from_currency := upper (args_get_str a "from" "USD") in
  let to_currency := upper (args_get_str a "to" "INR") in
  match amount with
  | None => ret (jsonify [("error", JStr "Missing amount")], 400)
  | Some amount =>
      if is_zero amount
      then ret (jsonify [("error", JStr "Missing amount")], 400)
      else
        res <- call w (Latest amount from_currency to_currency) ;;
        rates <- lift (py_getitem res "rates") ;;
        converted <- lift (py_dict_get rates to_currency) ;;
        rate <- lift (if negb (is_zero amount) && truthy converted
                      then match py_truediv converted amount with
                           | Ok r => Ok (Some r)
                           | Raise e => Raise e
                           end
                      else Ok None) ;;
        ret (jsonify [("from", JStr from_currency);
                      ("to", JStr to_currency);
                      ("amount", JNum amount);
                      ("converted", converted);
                      ("rate", opt_num rate)], 200)
  end.

(** ** /historical *)

Definition in_list (s : string) (l : list string) : bool :=
  existsb (String.eqb s) l.

(** The [if]/[elif] chain over [range_param]; [None] is the [else]
    branch. *)
Definition start_of_range (end_date : Z) (range_param : string)
  : option (outcome Z) :=
  if in_list range_param ["7d"; "7days"]
  then Some (date_minus_days end_date 7)
  else if in_list range_param ["30d"; "1m"; "30days"]
  then Some (date_minus_days end_date 30)
  else if in_list range_param ["365d"; "1y"; "year"]
  then Some (date_minus_days end_date 365)
  else if in_list range_param ["all"; "max"]
  then Some (Ok epoch_start)
  else None.

(** [v.items()]. *)
Definition py_items (v : json) : outcome (list (string * json)) :=
  match v with
  | JObj kv => Ok kv
  | _ => Raise AttributeError
  end.

(** [sorted] on the items of a dict.  The keys of a dict are distinct, so
    the comparison of two items is decided by their keys. *)
Fixpoint insert_item (x : string * json) (l : list (string * json))
  : list (string * json) :=
  match l with
  | [] => [x]
  | y :: rest =>
      if String.leb (fst x) (fst y) then x :: l else y :: insert_item x rest
  end.

Definition sorted (l : list (string * json)) : list (string * json) :=
  fold_right insert_item [] l.

(** [max(1, n // max_points)]; the handler has [max_points = 100]. *)
Definition stride (n max_points : nat) : nat := Nat.max 1 (n / max_points).

(** The [for i, (date, data) in enumerate(sorted_data)] loop, from index
    [i] on, with the two lists it appends to. *)
Fixpoint sample_loop (step : nat) (to_currency : string) (i : nat)
         (items : list (string * json))
         (dates : list string) (rates : list json)
  : outcome (list string * list json) :=
  match items with
  | [] => Ok (dates, rates)
  | (date, data) :: rest =>
      if i mod step =? 0 then
        match py_getitem data to_currency with
        | Ok v => sample_loop step to_currency (S i) rest
                              (dates ++ [date]) (rates ++ [v])
        | Raise e => Raise e
        end
      else sample_loop step to_currency (S i) rest dates rates
  end.

(** The elements the loop keeps: those at an index [j] with
    [j mod step = 0], counting from [i]. *)
Fixpoint sample_from {A : Type} (step i : nat) (l : list A) : list A :=
  match l with
  | [] => []
  | x :: rest =>
      if i mod step =? 0 then x :: sample_from step (S i) rest
      else sample_from step (S i) rest
  end.

Definition sample {A : Type} (max_points : nat) (series : list A) : list A :=
  sample_from (stride (List.length series) max_points) 0 series.

Definition historical_data (w : world) (a : args) : M response :=
  let from_currency := upper (args_get_str a "from" "USD") in
  let to_currency := upper (args_get_str a "to" "INR") in
  let range_param := lower (args_get_str a "range" "7d") in
  let end_date := today w in
  match start_of_range end_date range_param with
  | None =>
      ret (jsonify [("error",
                     JStr "Invalid range. Use 7d, 30d/1m, 365d/1y, or all/max")],
           400)
  | Some start =>
      start_date <- lift start ;;
      res <- call w (Between start_date end_date from_currency to_currency) ;;
      has_rates <- lift (py_in "rates" res) ;;
      if negb has_rates
      then ret (jsonify [("error", JStr "No data available")], 404)
      else
        rates_obj <- lift (py_getitem res "rates") ;;
        items <- lift (py_items rates_obj) ;;
        let sorted_data := sorted items in
        let step := stride (List.length sorted_data) 100 in
        sampled <- lift (sample_loop step to_currency 0 sorted_data [] []) ;;
        ret (jsonify [("from", JStr from_currency);
                      ("to", JStr to_currency);
                      ("range", JStr range_param);
                      ("dates", JArr (map JStr (fst sampled)));
                      ("rates", JArr (snd sampled))], 200)
  end.

(** ** /chatbot *)

(** [[a-zA-Z]{2,}|rupee|yen|dollar|euro] *)
Definition currency_word : regex :=
  Alt (Rep CAlpha 2 None)
      (Alt (Lit "rupee") (Alt (Lit "yen") (Alt (Lit "dollar") (Lit "euro")))).

(** [usd|eur|inr|jpy|gbp|[a-zA-Z]{3}] *)
Definition currency_code : regex :=
  Alt (Lit "usd")
      (Alt (Lit "eur")
           (Alt (Lit "inr") (Alt (Lit "jpy") (Alt (Lit "gbp") (exactly 3 CAlpha))))).

Local Infix "+>" := Seq (at level 60, right associativity).

(** The pattern of rule 1, conversion queries. *)
Definition conversion_re : regex :=
  Group 1 (plus CDigit +> Rep (CChar ".") 0 (Some 1) +> star CDigit)
  +> star CSpace
  +> Group 2 currency_word
  +> star CSpace
  +> Opt (Alt (Lit "to") (Lit "in"))
  +> star CSpace
  +> Group 3 currency_word.

(** The pattern of rule 2, specific date queries. *)
Definition date_re : regex :=
  Group 1 currency_code
  +> star CSpace
  +> Opt (Lit "to")
  +> star CSpace
  +> Group 2 currency_code
  +> star CAny
  +> Lit "on"
  +> star CSpace
  +> Group 3 (exactly 4 CDigit +> Lit "-" +> exactly 2 CDigit
              +> Lit "-" +> exactly 2 CDigit).

(** The pattern of rule 3, historical range queries. *)
Definition range_re : regex :=
  Group 1 currency_code
  +> star CSpace
  +> Lit "to"
  +> star CSpace
  +> Group 2 currency_code
  +> star CAny
  +> Lit "last"
  +> star CSpace
  +> Group 3 (plus CDigit)
  +> star CSpace
  +> Lit "days".

Definition mapping : list (string * string) :=
  [("rupee", "INR"); ("yen", "JPY"); ("dollar", "USD"); ("euro", "EUR");
   ("pound", "GBP")].

(** [mapping.get(token.lower(), token.upper())] *)
Definition normalize (token : string) : string :=
  match assoc (lower token) mapping with
  | Some c => c
  | None => upper token
  end.

Fixpoint digits_value (acc : Z) (s : string) : Z :=
  match s with
  | EmptyString => acc
  | String c rest =>
      digits_value (10 * acc + Z.of_nat (code c - 48))%Z rest
  end.

(** [int(s)] on a decimal numeral. *)
Definition py_int (s : string) : outcome Z :=
  match s with
  | EmptyString => Raise ValueError
  | _ => if sall is_digit s then Ok (digits_value 0 s) else Raise ValueError
  end.

Definition float_of (w : world) (s : string) : outcome Q :=
  match py_float w s with
  | Some q => Ok q
  | None => Raise ValueError
  end.

(** ["rates" in res and to_currency in res["rates"]] *)
Definition has_rate (res : json) (to_currency : string) : outcome bool :=
  match py_in "rates" res with
  | Raise e => Raise e
  | Ok false => Ok false
  | Ok true =>
      match py_getitem res "rates" with
      | Raise e => Raise e
      | Ok rates => py_in to_currency rates
      end
  end.

(** What the handler answers: one constructor for each [jsonify] call of
    [chatbot], with the values that go into its body. *)
Inductive reply : Type :=
| ConvertReply (amount from_currency to_currency : string)
               (converted : json) (rate : Q)
| RateOnDateReply (date from_currency to_currency : string) (rate : json)
| RangeReply (from_currency to_currency : string) (days : Z) (data : json)
| HelpReply.

(** [data.get("message", "").lower().strip()] *)
Definition get_message (data : json) : outcome string :=
  match data with
  | JObj kv =>
      match assoc "message" kv with
      | None => Ok (strip (lower ""))
      | Some (JStr s) => Ok (strip (lower s))
      | Some _ => Raise AttributeError
      end
  | _ => Raise AttributeError
  end.

(** Each rule gives [Some] reply when it returns from the handler and
    [None] when control goes on to the code below it. *)
Definition rule1 (w : world) (message : string) : M (option reply) :=
  match search conversion_re message with
  | None => ret None
  | Some g =>
      let amount := group 1 g in
      let from_currency := normalize (group 2 g) in
      let to_currency := normalize (group 3 g) in
      a <- lift (float_of w amount) ;;
      res <- call w (Latest a from_currency to_currency) ;;
      found <- lift (has_rate res to_currency) ;;
      if found then
        rates <- lift (py_getitem res "rates") ;;
        converted <- lift (py_getitem rates to_currency) ;;
        d <- lift (float_of w amount) ;;
        rate <- lift (py_truediv converted d) ;;
        ret (Some (ConvertReply amount from_currency to_currency converted rate))
      else ret None
  end.

Definition rule2 (w : world) (message : string) : M (option reply) :=
  match search date_re message with
  | None => ret None
  | Some g =>
      let from_currency := upper (group 1 g) in
      let to_currency := upper (group 2 g) in
      let date := group 3 g in
      res <- call w (OnDate date from_currency to_currency) ;;
      found <- lift (has_rate res to_currency) ;;
      if found then
        rates <- lift (py_getitem res "rates") ;;
        rate <- lift (py_getitem rates to_currency) ;;
        ret (Some (RateOnDateReply date from_currency to_currency rate))
      else ret None
  end.

Definition rule3 (w : world) (message : string) : M (option reply) :=
  match search range_re message with
  | None => ret None
  | Some g =>
      let from_currency := upper (group 1 g) in
      let to_currency := upper (group 2 g) in
      days <- lift (py_int (group 3 g)) ;;
      let end_date := today w in
      start_date <- lift (date_minus_days end_date days) ;;
      res <- call w (Between start_date end_date from_currency to_currency) ;;
      found <- lift (py_in "rates" res) ;;
      if found then
        data <- lift (py_getitem res "rates") ;;
        ret (Some (RangeReply from_currency to_currency days data))
      else ret None
  end.

(** The handler from its second rule on. *)
Definition rules_from_2 (w : world) (message : string) : M reply :=
  r2 <- rule2 w message ;;
  match r2 with
  | Some r => ret r
  | None =>
      r3 <- rule3 w message ;;
      match r3 with
      | Some r => ret r
      | None => ret HelpReply
      end
  end.

Definition chatbot_on (w : world) (message : string) : M reply :=
  r1 <- rule1 w message ;;
  match r1 with
  | Some r => ret r
  | None => rules_from_2 w message
  end.

Definition chatbot (w : world) (data : json) : M reply :=
  message <- lift (get_message data) ;;
  chatbot_on w message.

(** ** Concrete worlds, for the examples *)

Fixpoint decimal_fraction (num : Z) (den : positive) (s : string) : option Q :=
  match s with
  | EmptyString => Some (num # den)
  | String c rest =>
      if is_digit c
      then decimal_fraction (10 * num + Z.of_nat (code c - 48))%Z (10 * den)%positive rest
      else None
  end.

Fixpoint decimal_integer (num : Z) (seen : bool) (s : string) : option Q :=
  match s with
  | EmptyString => if seen then Some (num # 1) else None
  | String c rest =>
      if is_digit c
      then decimal_integer (10 * num + Z.of_nat (code c - 48))%Z true rest
      else if Ascii.eqb c "."
      then match rest with
           | EmptyString => if seen then Some (num # 1) else None
           | _ => decimal_fraction num 1 rest
           end
      else None
  end.

(** [float] on plain decimal numerals: [12], [12.], [12.5], [.5], with
    an optional minus sign. *)
Definition decimal_float (s : string) : option Q :=
  match s with
  | String "-" rest => option_map Qopp (decimal_integer 0 false rest)
  | _ => decimal_integer 0 false s
  end.

(** An upstream that knows no currency pair at all. *)
Definition not_found : json := JObj [("message", JStr "not found")].

Definition upstream_not_found (c : api_call) : outcome json := Ok not_found.

Definition no_data_world : world :=
  {| py_float := decimal_float; upstream := upstream_not_found; today := 739923 |}.

Definition known (c : string) : bool :=
  in_list c ["USD"; "EUR"; "INR"; "JPY"; "GBP"].

(** An upstream with five currencies, whose range answers list their
    dates out of order. *)
Definition demo_upstream (c : api_call) : outcome json :=
  match c with
  | Latest a f t =>
      if known f && known t
      then Ok (JObj [("amount", JNum a); ("base", JStr f);
                     ("rates", JObj [(t, JNum (a * 2))])])
      else Ok not_found
  | Between _ _ f t =>
      if known f && known t
      then Ok (JObj [("base", JStr f);
                     ("rates", JObj [("2026-10-30", JObj [(t, JNum 3)]);
                                     ("2026-10-28", JObj [(t, JNum 1)]);
                                     ("2026-10-29", JObj [(t, JNum 2)])])])
      else Ok not_found
  | OnDate d f t =>
      if known f && known t
      then Ok (JObj [("base", JStr f); ("date", JStr d);
                     ("rates", JObj [(t, JNum 2)])])
      else Ok not_found
  end.

Definition demo_world : world :=
  {| py_float := decimal_float; upstream := demo_upstream; today := 739923 |}.

Definition two_digits (n : nat) : string :=
  String (ascii_of_nat (48 + n / 10)) (String (ascii_of_nat (48 + n mod 10)) "").

(** The [i]-th of a run of dates in 2026, twenty-eight to the month. *)
Definition date_key (i : nat) : string :=
  "2026-" ++ two_digits (i / 28 + 1) ++ "-" ++ two_digits (i mod 28 + 1).

Definition daily_rates (n : nat) (to_currency : string) : list (string * json) :=
  map (fun i => (date_key i, JObj [(to_currency, JNum 2)])) (seq 0 n).

(** An upstream whose range answers hold [n] dates. *)
Definition long_upstream (n : nat) (c : api_call) : outcome json :=
  match c with
  | Between _ _ f t =>
      Ok (JObj [("base", JStr f); ("rates", JObj (daily_rates n t))])
  | _ => Ok not_found
  end.

Definition long_world (n : nat) : world :=
  {| py_float := decimal_float; upstream := long_upstream n; today := 739923 |}.

Definition dates_of (r : response) : list json :=
  match fst r with
  | JObj kv => match assoc "dates" kv with
               | Some (JArr l) => l
               | _ => []
               end
  | _ => []
  end.

Definition message (s : string) : json := JObj [("message", JStr s)].

(** ** Vocabulary of the statements *)

Definition missing_amount : response :=
  (jsonify [("error", JStr "Missing amount")], 400).

Definition date_lt (x y : string) : Prop := String.ltb x y = true.

Definition key_lt (x y : string * json) : Prop := date_lt (fst x) (fst y).

Definition no_data : response :=
  (jsonify [("error", JStr "No data available")], 404).

(** The date under which a rate is found in the upstream's answer. *)
Definition paired (items : list (string * json)) (to_currency : string)
           (date : string) (rate : json) : Prop :=
  exists data, In (date, data) items /\ py_getitem data to_currency = Ok rate.

Definition range_message : string := "usd to eur last 30 days".

(** [Matches r t g g']: the pattern [r] can match the text [t], turning
    the groups [g] into [g']. *)
Inductive Matches : regex -> string -> groups -> groups -> Prop :=
| MLit w g : Matches (Lit w) w g g
| MRep p lo hi t g :
    sall (in_class p) t = true ->
    lo <= String.length t ->
    (forall h, hi = Some h -> String.length t <= h) ->
    Matches (Rep p lo hi) t g g
| MSeq r1 r2 t1 t2 g g1 g2 :
    Matches r1 t1 g g1 -> Matches r2 t2 g1 g2 ->
    Matches (Seq r1 r2) (t1 ++ t2)%string g g2
| MAltL r1 r2 t g g' : Matches r1 t g g' -> Matches (Alt r1 r2) t g g'
| MAltR r1 r2 t g g' : Matches r2 t g g' -> Matches (Alt r1 r2) t g g'
| MOptSome r t g g' : Matches r t g g' -> Matches (Opt r) t g g'
| MOptNone r g : Matches (Opt r) EmptyString g g
| MGroup i r t g g' : Matches r t g g' -> Matches (Group i r) t g ((i, t) :: g').

(** An upstream none of whose answers has a "rates" field. *)
Definition no_rates_field (w : world) : Prop :=
  forall c, exists kv, upstream w c = Ok (JObj kv) /\ assoc "rates" kv = None.

(** [a] divided by [b], rounded up. *)
Definition ceil_div (a b : nat) : nat := (a + b - 1) / b.

(** Some character of [s] satisfies [p]. *)
Fixpoint sany (p : ascii -> bool) (s : string) : bool :=
  match s with
  | EmptyString => false
  | String c s' => p c || sany p s'
  end.

(** The body of a 200 answer of /historical. *)
Definition historical_body (a : args) (dates : list string)
           (rates : list json) : json :=
  jsonify [("from", JStr (upper (args_get_str a "from" "USD")));
           ("to", JStr (upper (args_get_str a "to" "INR")));
           ("range", JStr (lower (args_get_str a "range" "7d")));
           ("dates", JArr (map JStr dates));
           ("rates", JArr rates)].

(** The request /historical sends for a start date. *)
Definition historical_request (w : world) (a : args) (start_date : Z)
  : api_call :=
  Between start_date (today w) (upper (args_get_str a "from" "USD"))
          (upper (args_get_str a "to" "INR")).

(** The tokens [range_param] may be. *)
Definition range_tokens : list string :=
  ["7d"; "7days"; "30d"; "1m"; "30days"; "365d"; "1y"; "year"; "all"; "max"].

Definition invalid_range : response :=
  (jsonify [("error",
             JStr "Invalid range. Use 7d, 30d/1m, 365d/1y, or all/max")],
   400).

(** The request /convert sends for an amount. *)
Definition convert_request (a : args) (amount : Q) : api_call :=
  Latest amount (upper (args_get_str a "from" "USD"))
         (upper (args_get_str a "to" "INR")).

(** The body of a 200 answer of /convert. *)
Definition convert_body (a : args) (amount : Q) (converted rate : json)
  : json :=
  jsonify [("from", JStr (upper (args_get_str a "from" "USD")));
           ("to", JStr (upper (args_get_str a "to" "INR")));
           ("amount", JNum amount);
           ("converted", converted);
           ("rate", rate)].

(** An item of the "rates" object holds a rate for the currency. *)
Definition has_currency (to_currency : string) (item : string * json) : Prop :=
  exists v, py_getitem (snd item) to_currency = Ok v.

(** An upstream that cannot be reached. *)
Definition down_world : world :=
  {| py_float := decimal_float;
     upstream := fun _ => Raise RequestException;
     today := 739923 |}.

(** An upstream that quotes the euro alone. *)
Definition eur_only_world : world :=
  {| py_float := decimal_float;
     upstream := fun _ => Ok (JObj [("rates", JObj [("EUR", JNum 1)])]);
     today := 739923 |}.

(** A character of the ASCII range.  On a message made of such
    characters the classes of the patterns, [lower] and [strip] are
    those of Python. *)
Definition is_ascii (c : ascii) : bool := code c <? 128.

(** An upstream that quotes a currency YS, and nothing else. *)
Definition ys_world : world :=
  {| py_float := decimal_float;
     upstream := fun _ => Ok (JObj [("rates", JObj [("YS", JNum 1)])]);
     today := 739923 |}.

(** A run in which no exception of the upstream is caught: a request
    that raises is the last one of the log, and its exception is the
    outcome. *)
Definition propagates {A : Type} (w : world) (m : M A) : Prop :=
  forall o log c e,
    run m = (o, log) -> In c log -> upstream w c = Raise e ->
    o = Raise e /\ exists l, log = l ++ [c].

(** No request of the log raised at the upstream. *)
Definition all_answered (w : world) (log : list api_call) : Prop :=
  forall c e, In c log -> upstream w c <> Raise e.

(** A piece of a handler that sends at most one request, and whose
    outcome is the exception of that request when it raises. *)
Definition one_request {A : Type} (w : world) (log : list api_call)
           (o : outcome A) (log' : list api_call) : Prop :=
  log' = log \/
  exists c, log' = log ++ [c] /\ forall e, upstream w c = Raise e -> o = Raise e.

(** An upstream that knows no pair and fails on range requests. *)
Definition range_down_world : world :=
  {| py_float := decimal_float;
     upstream := fun c => match c with
                          | Between _ _ _ _ => Raise RequestException
                          | _ => Ok not_found
                          end;
     today := 739923 |}.

(** * Properties *)

(** ** /convert *)

Lemma is_zero_iff (q : Q) : is_zero q = true <-> (q == 0)%Q.
Proof. unfold is_zero. apply Qeq_bool_iff. Qed.


Lemma not_zero_false (q : Q) : ~ (q == 0)%Q -> is_zero q = false.
Proof.
  intro Hne. destruct (is_zero q) eqn:E; [|reflexivity].
  apply is_zero_iff in E. contradiction.
Qed.

(** C8: when [amount] is omitted or equal to 0, /convert answers 400 with
    the fixed message "Missing amount" and the log of upstream requests is
    left as it was: no request is made. *)
Theorem convert_missing_or_zero_amount_400 (w : world) (a : args) :
  (assoc "amount" a = None \/
   exists s q, assoc "amount" a = Some s /\ py_float w s = Some q /\ (q == 0)%Q) ->
  forall log, convert_currency w a log = (Ok missing_amount, log).
Proof.
  intros H log. unfold convert_currency, args_get_float.
  destruct H as [H | (s & q & H & Hf & Hz)]; rewrite H.
  - reflexivity.
  - rewrite Hf. apply is_zero_iff in Hz. rewrite Hz. reflexivity.
Qed.

Lemma convert_missing_or_zero_amount_400_witness :
  run (convert_currency demo_world [("from", "usd"); ("amount", "0.0")])
  = (Ok missing_amount, []).
Proof.
  apply (convert_missing_or_zero_amount_400 demo_world).
  right. exists "0.0", (0 # 10). repeat split.
Defined.




(** ** The order of strings *)

Lemma ascii_compare_lt_trans (a b c : ascii) :
  Ascii.compare a b = Lt -> Ascii.compare b c = Lt -> Ascii.compare a c = Lt.
Proof.
  unfold Ascii.compare. rewrite !N.compare_lt_iff. apply N.lt_trans.
Qed.

Lemma compare_lt_trans (x : string) :
  forall y z, String.compare x y = Lt -> String.compare y z = Lt ->
              String.compare x z = Lt.
Proof.
  induction x as [|a x IH]; intros [|b y] [|c z]; simpl;
    try discriminate; try reflexivity.
  destruct (Ascii.compare a b) eqn:Eab; try discriminate;
    destruct (Ascii.compare b c) eqn:Ebc; try discriminate; intros H1 H2.
  - apply Ascii.compare_eq_iff in Eab, Ebc. subst.
    replace (Ascii.compare c c) with Eq
      by (symmetry; unfold Ascii.compare; apply N.compare_refl).
    eauto.
  - apply Ascii.compare_eq_iff in Eab. subst. now rewrite Ebc.
  - apply Ascii.compare_eq_iff in Ebc. subst. now rewrite Eab.
  - now rewrite (ascii_compare_lt_trans _ _ _ Eab Ebc).
Qed.

Lemma date_lt_trans (x y z : string) : date_lt x y -> date_lt y z -> date_lt x z.
Proof.
  unfold date_lt, String.ltb. intros H1 H2.
  destruct (String.compare x y) eqn:E1; try discriminate.
  destruct (String.compare y z) eqn:E2; try discriminate.
  now rewrite (compare_lt_trans _ _ _ E1 E2).
Qed.

Lemma leb_neq_lt (x y : string) : String.leb x y = true -> x <> y -> date_lt x y.
Proof.
  unfold date_lt, String.leb, String.ltb. intros H Hne.
  destruct (String.compare x y) eqn:E; try discriminate; [|reflexivity].
  apply String.compare_eq_iff in E. contradiction.
Qed.

Lemma not_leb_lt (x y : string) : String.leb x y = false -> date_lt y x.
Proof.
  unfold date_lt, String.leb, String.ltb. rewrite (String.compare_antisym y x).
  destruct (String.compare x y); try discriminate. reflexivity.
Qed.

(** ** [sorted] *)

Lemma insert_item_In (x y : string * json) (l : list (string * json)) :
  In y (insert_item x l) <-> y = x \/ In y l.
Proof.
  induction l as [|z l IH]; simpl.
  - intuition congruence.
  - destruct (String.leb (fst x) (fst z)); simpl; rewrite ?IH; intuition congruence.
Qed.

Lemma sorted_In (y : string * json) (l : list (string * json)) :
  In y (sorted l) <-> In y l.
Proof.
  induction l as [|x l IH]; simpl; [tauto|].
  rewrite insert_item_In, IH. intuition congruence.
Qed.

Lemma sorted_length (l : list (string * json)) :
  List.length (sorted l) = List.length l.
Proof.
  assert (Hins : forall x m, List.length (insert_item x m) = S (List.length m)).
  { intros x m. induction m as [|z m IH]; simpl; [reflexivity|].
    destruct (String.leb (fst x) (fst z)); simpl; congruence. }
  induction l as [|x l IH]; simpl; [reflexivity|].
  now rewrite Hins, IH.
Qed.

Lemma insert_item_sorted (x : string * json) (l : list (string * json)) :
  StronglySorted key_lt l ->
  (forall y, In y l -> fst y <> fst x) ->
  StronglySorted key_lt (insert_item x l).
Proof.
  induction 1 as [|z l Hs IH Hz]; intros Hfresh; simpl.
  - constructor; constructor.
  - destruct (String.leb (fst x) (fst z)) eqn:E.
    + assert (Hxz : key_lt x z).
      { apply leb_neq_lt; [exact E|]. intro Heq.
        apply (Hfresh z); [now left | now symmetry]. }
      constructor; [constructor; assumption|].
      constructor; [exact Hxz|].
      rewrite Forall_forall in *. intros y Hy.
      apply date_lt_trans with (fst z); [exact Hxz | now apply Hz].
    + constructor.
      * apply IH. intros y Hy. apply Hfresh. now right.
      * rewrite Forall_forall in *. intros y Hy.
        apply insert_item_In in Hy. destruct Hy as [-> | Hy].
        -- now apply not_leb_lt.
        -- now apply Hz.
Qed.

(** On the items of a dict, whose keys are distinct, [sorted] gives the
    items in strictly ascending order of their keys. *)
Lemma sorted_strongly_sorted (l : list (string * json)) :
  NoDup (map fst l) -> StronglySorted key_lt (sorted l).
Proof.
  induction l as [|x l IH]; simpl; intros Hnd.
  - constructor.
  - inversion Hnd as [|? ? Hnotin Hnd']; subst.
    apply insert_item_sorted; [now apply IH|].
    intros y Hy Heq. apply Hnotin. rewrite <- Heq.
    apply in_map. now apply sorted_In.
Qed.

(** ** The sampling loop *)

Lemma sample_from_In {A : Type} (step : nat) (x : A) (l : list A) :
  forall i, In x (sample_from step i l) -> In x l.
Proof.
  induction l as [|y l IH]; simpl; intros i; [tauto|].
  destruct (i mod step =? 0); simpl; intuition eauto.
Qed.

Lemma sample_from_strongly_sorted {A : Type} (R : A -> A -> Prop)
      (step : nat) (l : list A) :
  StronglySorted R l -> forall i, StronglySorted R (sample_from step i l).
Proof.
  induction 1 as [|y l Hs IH Hy]; intros i; simpl; [constructor|].
  destruct (i mod step =? 0); [|apply IH].
  constructor; [apply IH|].
  rewrite Forall_forall in *. intros z Hz. apply Hy.
  exact (sample_from_In _ _ _ _ Hz).
Qed.

Lemma sample_from_length_le {A : Type} (step : nat) (l : list A) :
  forall i, List.length (sample_from step i l) <= List.length l.
Proof.
  induction l as [|y l IH]; simpl; intros i; [lia|].
  destruct (i mod step =? 0); simpl; specialize (IH (S i)); lia.
Qed.

(** With a stride of 1 every element is kept. *)
Lemma sample_from_step_1 {A : Type} (l : list A) :
  forall i, sample_from 1 i l = l.
Proof.
  induction l as [|y l IH]; intros i; cbn [sample_from]; [reflexivity|].
  rewrite Nat.mod_1_r. cbn [Nat.eqb]. now rewrite IH.
Qed.

(** A series of fewer than 200 points has stride 1 and is kept whole. *)
Lemma sample_short_series_kept {A : Type} (l : list A) :
  List.length l < 200 -> sample 100 l = l.
Proof.
  intros Hlen. unfold sample, stride.
  assert (Hq : List.length l / 100 < 2)
    by (apply Nat.Div0.div_lt_upper_bound; lia).
  replace (Nat.max 1 (List.length l / 100)) with 1 by lia.
  apply sample_from_step_1.
Qed.

(** The loop of the handler appends, to the lists it was given, the dates
    of the kept items and the rate found under each of them. *)
Lemma sample_loop_spec (step : nat) (to_currency : string)
      (items : list (string * json)) :
  forall i dates rates dates' rates',
    sample_loop step to_currency i items dates rates = Ok (dates', rates') ->
    dates' = dates ++ map fst (sample_from step i items) /\
    exists vs, rates' = rates ++ vs /\
               Forall2 (fun item v => py_getitem (snd item) to_currency = Ok v)
                       (sample_from step i items) vs.
Proof.
  induction items as [|[date data] rest IH]; simpl; intros i ds rs ds' rs' H.
  - inversion H; subst. rewrite app_nil_r. split; [reflexivity|].
    exists []. rewrite app_nil_r. split; [reflexivity | constructor].
  - destruct (i mod step =? 0).
    + destruct (py_getitem data to_currency) as [v|e] eqn:Ev; [|discriminate].
      apply IH in H. destruct H as [Hd (vs & Hr & Hf)]. subst.
      rewrite <- !app_assoc. simpl. split; [reflexivity|].
      exists (v :: vs). split; [reflexivity|]. constructor; assumption.
    + apply IH in H. exact H.
Qed.

(** The loop raises only for a kept item that lacks the target currency. *)
Lemma sample_loop_total (step : nat) (to_currency : string)
      (items : list (string * json)) :
  Forall (fun item => exists v, py_getitem (snd item) to_currency = Ok v) items ->
  forall i dates rates,
    exists r, sample_loop step to_currency i items dates rates = Ok r.
Proof.
  induction 1 as [|[date data] rest [v Hv] _ IH]; simpl; intros i ds rs.
  - eexists; reflexivity.
  - simpl in Hv. rewrite Hv. destruct (i mod step =? 0); apply IH.
Qed.

(** ** /historical *)



(** C1: a series of 199 dates is returned whole.  [199 // 100] is 1, so
    the stride is 1 and all 199 points are kept: more than
    [maxPoints + 1 = 101], and more than the 100 points that the comment
    in the handler announces. *)
Theorem sample_199_points_kept :
  stride 199 100 = 1 /\
  List.length (sample 100 (daily_rates 199 "INR")) = 199 /\
  exists body,
    run (historical_data (long_world 199) [("range", "1y")])
    = (Ok (body, 200), [Between 739558 739923 "USD" "INR"]) /\
    List.length (dates_of (body, 200)) = 199.
Proof.
  split; [reflexivity|]. split; [vm_compute; reflexivity|].
  eexists. split; vm_compute; reflexivity.
Qed.

(** On /historical, an answer of the upstream without a "rates" field
    gives the error "No data available" with status 404. *)
Lemma historical_no_rates_404 (w : world) (a : args) (start_date : Z)
      (kv : list (string * json)) :
  let from_currency := upper (args_get_str a "from" "USD") in
  let to_currency := upper (args_get_str a "to" "INR") in
  let request := Between start_date (today w) from_currency to_currency in
  start_of_range (today w) (lower (args_get_str a "range" "7d"))
  = Some (Ok start_date) ->
  upstream w request = Ok (JObj kv) ->
  assoc "rates" kv = None ->
  run (historical_data w a) = (Ok no_data, [request]).
Proof.
  intros from_currency to_currency request Hstart Hup Hno.
  unfold run, historical_data. rewrite Hstart.
  fold from_currency to_currency.
  unfold bind, lift, call, ret. simpl app. fold request. rewrite Hup.
  unfold py_in. rewrite Hno. reflexivity.
Qed.

(** The same answer makes /convert raise: it reads [res["rates"]] without
    the test the other two handlers make. *)
Lemma convert_no_rates_raises :
  run (convert_currency no_data_world [("amount", "10"); ("from", "usd"); ("to", "xyz")])
  = (Raise KeyError, [Latest 10 "USD" "XYZ"]).
Proof. vm_compute. reflexivity. Qed.

Lemma sampled_pairs (items kept : list (string * json)) (to_currency : string)
      (vs : list json) :
  (forall x, In x kept -> In x items) ->
  Forall2 (fun item v => py_getitem (snd item) to_currency = Ok v) kept vs ->
  Forall2 (paired items to_currency) (map fst kept) vs.
Proof.
  intros Hsub Hf. induction Hf as [|[date data] v kept vs Hv Hf IH]; simpl.
  - constructor.
  - constructor.
    + exists data. split; [apply Hsub; now left | exact Hv].
    + apply IH. intros x Hx. apply Hsub. now right.
Qed.

Lemma strongly_sorted_map_fst (l : list (string * json)) :
  StronglySorted key_lt l -> StronglySorted date_lt (map fst l).
Proof.
  induction 1 as [|x l Hs IH Hx]; simpl; constructor; [exact IH|].
  rewrite Forall_forall in *. intros d Hd.
  apply in_map_iff in Hd. destruct Hd as (y & <- & Hy). now apply Hx.
Qed.

(** C9: every 200 answer of /historical lists its dates in ascending
    order, whatever the order of the keys in the "rates" object of the
    upstream (an object has no key twice), and [rates[i]] is the rate the
    upstream gave for [dates[i]]. *)
Theorem historical_dates_sorted (w : world) (a : args) (body : json)
        (log : list api_call) :
  run (historical_data w a) = (Ok (body, 200), log) ->
  exists request res items dates rates,
    log = [request] /\ upstream w request = Ok res /\
    py_getitem res "rates" = Ok (JObj items) /\
    body = jsonify [("from", JStr (upper (args_get_str a "from" "USD")));
                    ("to", JStr (upper (args_get_str a "to" "INR")));
                    ("range", JStr (lower (args_get_str a "range" "7d")));
                    ("dates", JArr (map JStr dates));
                    ("rates", JArr rates)] /\
    (NoDup (map fst items) -> StronglySorted date_lt dates) /\
    Forall2 (paired items (upper (args_get_str a "to" "INR"))) dates rates.
Proof.
  unfold run, historical_data.
  destruct (start_of_range _ _) as [[start_date|e]|]; [| |discriminate].
  2:{ unfold bind, lift. discriminate. }
  unfold bind, lift, call, ret. simpl app.
  set (request := Between _ _ _ _).
  destruct (upstream w request) as [res|e] eqn:Hup; [|discriminate].
  destruct (py_in "rates" res) as [[|]|e]; simpl; try discriminate.
  destruct (py_getitem res "rates") as [rates_obj|e] eqn:Hrates; [|discriminate].
  destruct rates_obj as [| | | | |items]; simpl; try discriminate.
  destruct (sample_loop _ _ 0 (sorted items) [] []) as [[dates rates]|e] eqn:Hloop;
    [|discriminate].
  intros H. inversion H; subst. clear H.
  apply sample_loop_spec in Hloop. destruct Hloop as [Hd (vs & Hr & Hf)].
  simpl in Hd, Hr. subst.
  exists request, res, items, (map fst (sample_from (stride (List.length (sorted items)) 100) 0 (sorted items))), vs.
  repeat split; try assumption.
  - intros Hnd. apply strongly_sorted_map_fst.
    apply sample_from_strongly_sorted. now apply sorted_strongly_sorted.
  - apply sampled_pairs; [|exact Hf].
    intros x Hx. apply sorted_In. exact (sample_from_In _ _ _ _ Hx).
Qed.

Lemma historical_dates_sorted_witness :
  let a := [("range", "30d")] in
  let dates := ["2026-10-28"; "2026-10-29"; "2026-10-30"] in
  let body := jsonify [("from", JStr "USD"); ("to", JStr "INR");
                       ("range", JStr "30d");
                       ("dates", JArr (map JStr dates));
                       ("rates", JArr [JNum 1; JNum 2; JNum 3])] in
  run (historical_data demo_world a)
  = (Ok (body, 200), [Between 739893 739923 "USD" "INR"]) /\
  exists request res items dates' rates',
    [Between 739893 739923 "USD" "INR"] = [request] /\
    upstream demo_world request = Ok res /\
    py_getitem res "rates" = Ok (JObj items) /\
    body = jsonify [("from", JStr (upper (args_get_str a "from" "USD")));
                    ("to", JStr (upper (args_get_str a "to" "INR")));
                    ("range", JStr (lower (args_get_str a "range" "7d")));
                    ("dates", JArr (map JStr dates'));
                    ("rates", JArr rates')] /\
    (NoDup (map fst items) -> StronglySorted date_lt dates') /\
    Forall2 (paired items (upper (args_get_str a "to" "INR"))) dates' rates'.
Proof.
  intros a dates body.
  assert (Hrun : run (historical_data demo_world a)
                 = (Ok (body, 200), [Between 739893 739923 "USD" "INR"]))
    by (vm_compute; reflexivity).
  split; [exact Hrun|].
  exact (@historical_dates_sorted demo_world a body _ Hrun).
Defined.

(** ** /chatbot *)

Lemma get_message_range :
  get_message (message "USD to EUR last 30 days") = Ok range_message.
Proof. vm_compute. reflexivity. Qed.

(** The pattern of rule 1 matches inside "30 days". *)
Lemma conversion_re_range_message :
  search conversion_re range_message = Some [(3, "ys"); (2, "da"); (1, "30")].
Proof. vm_compute. reflexivity. Qed.

Lemma date_re_range_message : search date_re range_message = None.
Proof. vm_compute. reflexivity. Qed.

Lemma range_re_range_message :
  search range_re range_message = Some [(3, "30"); (2, "eur"); (1, "usd")].
Proof. vm_compute. reflexivity. Qed.

(** Rule 1 when its pattern matches and the lookup finds no rate: one
    request, no reply. *)
Lemma rule1_lookup_failure (w : world) (msg : string) (g : groups) (a : Q)
      (res : json) (log : list api_call) :
  let request := Latest a (normalize (group 2 g)) (normalize (group 3 g)) in
  search conversion_re msg = Some g ->
  py_float w (group 1 g) = Some a ->
  upstream w request = Ok res ->
  has_rate res (normalize (group 3 g)) = Ok false ->
  rule1 w msg log = (Ok None, log ++ [request]).
Proof.
  intros request Hs Hf Hup Hno. unfold rule1. rewrite Hs.
  unfold float_of. rewrite Hf. unfold bind, lift, call, ret.
  fold request. rewrite Hup, Hno. reflexivity.
Qed.

Lemma rule1_lookup_failure_falls (w : world) (msg : string) (g : groups)
      (a : Q) (res : json) (log : list api_call) :
  search conversion_re msg = Some g ->
  py_float w (group 1 g) = Some a ->
  upstream w (Latest a (normalize (group 2 g)) (normalize (group 3 g))) = Ok res ->
  has_rate res (normalize (group 3 g)) = Ok false ->
  chatbot_on w msg log
  = rules_from_2 w msg
      (log ++ [Latest a (normalize (group 2 g)) (normalize (group 3 g))]).
Proof.
  intros Hs Hf Hup Hno. unfold chatbot_on, bind at 1.
  rewrite (rule1_lookup_failure w msg log Hs Hf Hup Hno). reflexivity.
Qed.

(** C3, as amended: when the pattern of rule 1 matches and the lookup
    finds no rate for the target currency, the handler goes on with rule 2
    and then rule 3 on the same message. *)
Theorem rule1_lookup_failure_falls_through (w : world) (msg : string)
        (g : groups) (a : Q) (res : json) (log : list api_call) :
  let request := Latest a (normalize (group 2 g)) (normalize (group 3 g)) in
  search conversion_re msg = Some g ->
  py_float w (group 1 g) = Some a ->
  upstream w request = Ok res ->
  has_rate res (normalize (group 3 g)) = Ok false ->
  chatbot_on w msg log = rules_from_2 w msg (log ++ [request]).
Proof.
  intros request. apply rule1_lookup_failure_falls.
Qed.

Lemma rule1_lookup_failure_falls_through_witness :
  chatbot_on demo_world "12.5 pound in zloty on 2023-01-05" []
  = rules_from_2 demo_world "12.5 pound in zloty on 2023-01-05"
                 [Latest 12.5 "GBP" "ZLOTY"].
Proof.
  apply (@rule1_lookup_failure_falls_through demo_world
           "12.5 pound in zloty on 2023-01-05"
           [(3, "zloty"); (2, "pound"); (1, "12.5")] 12.5 not_found []);
    vm_compute; reflexivity.
Defined.

(** C3, as stated, fails: on this message the pattern of rule 1 matches,
    its lookup finds no rate, and the reply comes from rule 3 after a
    second request. *)
Lemma rule1_failure_reaches_rule3 :
  search conversion_re range_message = Some [(3, "ys"); (2, "da"); (1, "30")] /\
  upstream demo_world (Latest 30 "DA" "YS") = Ok not_found /\
  has_rate not_found "YS" = Ok false /\
  exists data,
    run (chatbot demo_world (message "USD to EUR last 30 days"))
    = (Ok (RangeReply "USD" "EUR" 30 data),
       [Latest 30 "DA" "YS"; Between 739893 739923 "USD" "EUR"]).
Proof.
  repeat split; try (vm_compute; reflexivity).
  eexists. vm_compute. reflexivity.
Qed.

(** C2, as amended: "USD to EUR last 30 days" is answered by rule 3 with
    USD, EUR and 30 days when the upstream has no rate for YS and its
    range answer has a "rates" field.  The pattern of rule 1 matches the
    text "30 days" (amount 30, DA to YS), so the handler first asks the
    upstream for that pair; rule 2 does not match, and rule 3 replies with
    the "rates" of the range answer. *)
Theorem chatbot_range_scenario (w : world) (res1 : json)
        (kv : list (string * json)) (data : json) :
  let start_date := (today w - 30)%Z in
  let lookup := Latest 30 "DA" "YS" in
  let request := Between start_date (today w) "USD" "EUR" in
  py_float w "30" = Some 30%Q ->
  (MINYEAR_ordinal <= start_date)%Z -> (today w <= MAXYEAR_ordinal)%Z ->
  upstream w lookup = Ok res1 -> has_rate res1 "YS" = Ok false ->
  upstream w request = Ok (JObj kv) -> assoc "rates" kv = Some data ->
  search date_re range_message = None /\
  search range_re range_message = Some [(3, "30"); (2, "eur"); (1, "usd")] /\
  run (chatbot w (message "USD to EUR last 30 days"))
  = (Ok (RangeReply "USD" "EUR" 30 data), [lookup; request]).
Proof.
  intros start_date lookup request Hf Hmin Hmax Hup1 Hno Hup3 Hdata.
  split; [exact date_re_range_message|].
  split; [exact range_re_range_message|].
  unfold run, chatbot. rewrite get_message_range.
  unfold bind at 1, lift at 1.
  rewrite (@rule1_lookup_failure_falls w range_message
             [(3, "ys"); (2, "da"); (1, "30")] 30 res1 []
             conversion_re_range_message Hf Hup1 Hno).
  unfold rules_from_2, rule2. rewrite date_re_range_message.
  unfold bind at 1, ret at 1. unfold rule3. rewrite range_re_range_message.
  change (py_int (group 3 [(3, "30"); (2, "eur"); (1, "usd")])) with (Ok 30%Z).
  change (upper (group 1 [(3, "30"); (2, "eur"); (1, "usd")])) with "USD".
  change (upper (group 2 [(3, "30"); (2, "eur"); (1, "usd")])) with "EUR".
  assert (Hdate : date_minus_days (today w) 30 = Ok start_date).
  { unfold date_minus_days. change (999999999 <? Z.abs 30)%Z with false.
    cbv iota zeta. fold start_date.
    replace (start_date <? MINYEAR_ordinal)%Z with false
      by (symmetry; apply Z.ltb_ge; exact Hmin).
    replace (MAXYEAR_ordinal <? start_date)%Z with false
      by (symmetry; apply Z.ltb_ge; unfold start_date; lia).
    reflexivity. }
  unfold bind, lift, call, ret. rewrite Hdate. fold request.
  simpl app. fold lookup. rewrite Hup3.
  unfold py_in, py_getitem. rewrite Hdata. reflexivity.
Qed.

Lemma chatbot_range_scenario_witness :
  exists data,
    run (chatbot demo_world (message "USD to EUR last 30 days"))
    = (Ok (RangeReply "USD" "EUR" 30 data),
       [Latest 30 "DA" "YS"; Between 739893 739923 "USD" "EUR"]).
Proof.
  eexists.
  refine (proj2 (proj2 (@chatbot_range_scenario demo_world not_found _ _
            eq_refl _ _ eq_refl eq_refl eq_refl eq_refl))).
  - vm_compute. discriminate.
  - vm_compute. discriminate.
Defined.

(** C2, as stated, fails: what the message is mapped to depends on the
    upstream.  When the upstream quotes YS the reply is the conversion of
    rule 1, and when it has no data at all the reply is the help text. *)
Lemma range_scenario_depends_on_upstream :
  run (chatbot ys_world (message "USD to EUR last 30 days"))
  = (Ok (ConvertReply "30" "DA" "YS" (JNum 1) (1 / 30)),
     [Latest 30 "DA" "YS"]) /\
  run (chatbot no_data_world (message "USD to EUR last 30 days"))
  = (Ok HelpReply, [Latest 30 "DA" "YS"; Between 739893 739923 "USD" "EUR"]).
Proof. split; vm_compute; reflexivity. Qed.

(** ** What a match says about the captured text *)

Lemma append_assoc (a b c : string) : ((a ++ b) ++ c = a ++ (b ++ c))%string.
Proof. induction a as [|x a IH]; simpl; [reflexivity | now rewrite IH]. Qed.

Lemma length_append (a b : string) :
  String.length (a ++ b) = String.length a + String.length b.
Proof. induction a as [|x a IH]; simpl; [reflexivity | now rewrite IH]. Qed.

Lemma strip_prefix_app (w : string) :
  forall s s', strip_prefix w s = Some s' -> s = (w ++ s')%string.
Proof.
  induction w as [|a w IH]; simpl; intros s s' H.
  - now inversion H.
  - destruct s as [|b s]; [discriminate|].
    destruct (Ascii.eqb_spec a b) as [->|]; [|discriminate].
    now rewrite (IH _ _ H).
Qed.

Lemma consumed_app (t s' : string) : consumed (t ++ s') s' = t.
Proof.
  unfold consumed. rewrite length_append.
  replace (String.length t + String.length s' - String.length s')
    with (String.length t) by lia.
  induction t as [|c t IH]; simpl.
  - now destruct s'.
  - now rewrite IH.
Qed.

Lemma rep_sound (R : Type) (p : cclass) (k : string -> option R) (x : R)
      (s : string) :
  forall lo hi,
    rep p lo hi s k = Some x ->
    exists t s', s = (t ++ s')%string /\ sall (in_class p) t = true /\
                 lo <= String.length t /\
                 (forall h, hi = Some h -> String.length t <= h) /\
                 k s' = Some x.
Proof.
  assert (Hstop : forall lo hi s0, (if lo =? 0 then k s0 else None) = Some x ->
            exists t s', s0 = (t ++ s')%string /\ sall (in_class p) t = true /\
                 lo <= String.length t /\
                 (forall h, hi = Some h -> String.length t <= h) /\
                 k s' = Some x).
  { intros lo hi s0 H. destruct (Nat.eqb_spec lo 0) as [->|]; [|discriminate].
    exists EmptyString, s0. simpl. repeat split; auto; intros; lia. }
  induction s as [|c s IH]; intros lo hi H; cbn [rep] in H.
  - now apply Hstop.
  - destruct (in_class p c && can_take hi) eqn:E; [|now apply Hstop].
    destruct (rep p (pred lo) (option_map pred hi) s k) as [y|] eqn:Er;
      [|now apply Hstop].
    inversion H; subst y. clear H.
    apply andb_true_iff in E. destruct E as [Ec Eh].
    destruct (IH _ _ Er) as (t & s' & -> & Hall & Hlo & Hhi & Hk).
    exists (String c t), s'. simpl. rewrite Ec, Hall.
    repeat split; auto; [lia|].
    intros h ->. simpl in Eh. apply Nat.ltb_lt in Eh.
    specialize (Hhi _ eq_refl). lia.
Qed.

Lemma rmatch_sound (R : Type) (r : regex) :
  forall (s : string) (g : groups) (k : string -> groups -> option R) (x : R),
    rmatch r s g k = Some x ->
    exists t s' g', s = (t ++ s')%string /\ Matches r t g g' /\ k s' g' = Some x.
Proof.
  induction r as [w|p lo hi|r1 IH1 r2 IH2|r1 IH1 r2 IH2|r1 IH1|i r1 IH1];
    intros s g k x H; cbn [rmatch] in H.
  - destruct (strip_prefix w s) as [s'|] eqn:E; [|discriminate].
    apply strip_prefix_app in E. exists w, s', g.
    split; [exact E|]. split; [constructor | exact H].
  - apply rep_sound in H. destruct H as (t & s' & -> & Hall & Hlo & Hhi & Hk).
    exists t, s', g. split; [reflexivity|]. split; [now constructor | exact Hk].
  - apply IH1 in H. destruct H as (t1 & s1 & g1 & -> & M1 & H).
    apply IH2 in H. destruct H as (t2 & s2 & g2 & -> & M2 & H).
    exists (t1 ++ t2)%string, s2, g2. rewrite append_assoc.
    split; [reflexivity|]. split; [econstructor; eassumption | exact H].
  - destruct (rmatch r1 s g k) as [y|] eqn:E.
    + inversion H; subst y. apply IH1 in E.
      destruct E as (t & s' & g' & -> & M & Hk).
      exists t, s', g'. split; [reflexivity|]. split; [now apply MAltL | exact Hk].
    + apply IH2 in H. destruct H as (t & s' & g' & -> & M & Hk).
      exists t, s', g'. split; [reflexivity|]. split; [now apply MAltR | exact Hk].
  - destruct (rmatch r1 s g k) as [y|] eqn:E.
    + inversion H; subst y. apply IH1 in E.
      destruct E as (t & s' & g' & -> & M & Hk).
      exists t, s', g'. split; [reflexivity|]. split; [now apply MOptSome | exact Hk].
    + exists EmptyString, s, g.
      split; [reflexivity|]. split; [apply MOptNone | exact H].
  - apply IH1 in H. destruct H as (t & s' & g' & -> & M & Hk).
    rewrite consumed_app in Hk.
    exists t, s', ((i, t) :: g'). split; [reflexivity|].
    split; [now apply MGroup | exact Hk].
Qed.

(** A successful [search] returns the groups of a match of the pattern. *)
Lemma search_sound (r : regex) (s : string) (g : groups) :
  search r s = Some g -> exists t, Matches r t [] g.
Proof.
  induction s as [|c s IH]; cbn [search];
    destruct (rmatch r _ [] (fun _ g0 => Some g0)) as [g0|] eqn:E; intros H;
    try discriminate; try (now apply IH).
  all: inversion H; subst g0; apply rmatch_sound in E;
    destruct E as (t & s' & g' & _ & M & Hk); inversion Hk; subst; eauto.
Qed.

Ltac invert_match :=
  repeat match goal with
    | H : Matches (Lit _) _ _ _ |- _ => inversion H; subst; clear H
    | H : Matches (Rep _ _ _) _ _ _ |- _ => inversion H; subst; clear H
    | H : Matches (Seq _ _) _ _ _ |- _ => inversion H; subst; clear H
    | H : Matches (Alt _ _) _ _ _ |- _ => inversion H; subst; clear H
    | H : Matches (Opt _) _ _ _ |- _ => inversion H; subst; clear H
    | H : Matches (Group _ _) _ _ _ |- _ => inversion H; subst; clear H
    end.

(** A currency word of rule 1 is made of two letters or more. *)
Lemma currency_word_text (t : string) (g g' : groups) :
  Matches currency_word t g g' ->
  g' = g /\ sall is_alpha t = true /\ 2 <= String.length t.
Proof.
  unfold currency_word. intros H. invert_match;
    (split; [reflexivity|]); (split; [assumption || reflexivity|]);
    solve [assumption | simpl; lia].
Qed.

(** A currency token of rules 2 and 3 is made of three letters. *)
Lemma currency_code_text (t : string) (g g' : groups) :
  Matches currency_code t g g' ->
  g' = g /\ sall is_alpha t = true /\ String.length t = 3.
Proof.
  unfold currency_code, exactly. intros H. invert_match;
    (split; [reflexivity|]); (split; [assumption || reflexivity|]);
    try reflexivity.
  match goal with Hhi : forall h, Some 3 = Some h -> _ |- _ =>
    specialize (Hhi 3 eq_refl) end. lia.
Qed.

Lemma conversion_re_groups (t : string) (g : groups) :
  Matches conversion_re t [] g ->
  exists t1 t2 t3,
    g = [(3, t3); (2, t2); (1, t1)] /\
    (sall is_alpha t2 = true /\ 2 <= String.length t2) /\
    (sall is_alpha t3 = true /\ 2 <= String.length t3).
Proof.
  unfold conversion_re, plus, star. intros H.
  inversion H; subst; clear H.
  repeat match goal with
    | H : Matches (Seq _ _) _ _ _ |- _ => inversion H; subst; clear H
    | H : Matches (Group _ currency_word) _ _ _ |- _ =>
        inversion H; subst; clear H
    | H : Matches currency_word _ _ _ |- _ =>
        apply currency_word_text in H; destruct H as (-> & ? & ?)
    | H : Matches (Group 1 _) _ _ _ |- _ => inversion H; subst; clear H
    end.
  invert_match; eexists _, _, _; (split; [reflexivity|]); auto.
Qed.

Lemma date_re_groups (t : string) (g : groups) :
  Matches date_re t [] g ->
  exists t1 t2 t3,
    g = [(3, t3); (2, t2); (1, t1)] /\
    (sall is_alpha t1 = true /\ String.length t1 = 3) /\
    (sall is_alpha t2 = true /\ String.length t2 = 3).
Proof.
  unfold date_re, star, exactly. intros H.
  inversion H; subst; clear H.
  repeat match goal with
    | H : Matches (Seq _ _) _ _ _ |- _ => inversion H; subst; clear H
    | H : Matches (Group _ currency_code) _ _ _ |- _ =>
        inversion H; subst; clear H
    | H : Matches currency_code _ _ _ |- _ =>
        apply currency_code_text in H; destruct H as (-> & ? & ?)
    | H : Matches (Group 3 _) _ _ _ |- _ => inversion H; subst; clear H
    end.
  invert_match; eexists _, _, _; (split; [reflexivity|]); auto.
Qed.

Lemma range_re_groups (t : string) (g : groups) :
  Matches range_re t [] g ->
  exists t1 t2 t3,
    g = [(3, t3); (2, t2); (1, t1)] /\
    (sall is_alpha t1 = true /\ String.length t1 = 3) /\
    (sall is_alpha t2 = true /\ String.length t2 = 3).
Proof.
  unfold range_re, star, plus. intros H.
  inversion H; subst; clear H.
  repeat match goal with
    | H : Matches (Seq _ _) _ _ _ |- _ => inversion H; subst; clear H
    | H : Matches (Group _ currency_code) _ _ _ |- _ =>
        inversion H; subst; clear H
    | H : Matches currency_code _ _ _ |- _ =>
        apply currency_code_text in H; destruct H as (-> & ? & ?)
    | H : Matches (Group 3 _) _ _ _ |- _ => inversion H; subst; clear H
    end.
  invert_match; eexists _, _, _; (split; [reflexivity|]); auto.
Qed.

Lemma upper_char_alpha (c : ascii) :
  is_alpha c = true -> is_upper (upper_char c) = true.
Proof.
  destruct c as [[] [] [] [] [] [] [] []]; vm_compute; congruence.
Qed.

Lemma upper_alpha (t : string) :
  sall is_alpha t = true -> sall is_upper (upper t) = true.
Proof.
  unfold upper. induction t as [|c t IH]; simpl; [reflexivity|].
  intros H. apply andb_true_iff in H. destruct H as [Hc Ht].
  now rewrite (upper_char_alpha c Hc), IH.
Qed.

Lemma upper_length (t : string) : String.length (upper t) = String.length t.
Proof.
  unfold upper. induction t as [|c t IH]; simpl; [reflexivity | now rewrite IH].
Qed.

(** [normalize] gives a code of the table or the token in upper case. *)
Lemma normalize_cases (t : string) :
  (assoc (lower t) mapping = None /\ normalize t = upper t) \/
  (assoc (lower t) mapping <> None /\
   In (normalize t) ["INR"; "JPY"; "USD"; "EUR"; "GBP"]).
Proof.
  unfold normalize, mapping. cbn [assoc].
  repeat match goal with
    | |- context [String.eqb ?a ?b] => destruct (String.eqb a b)
    end; simpl; try (right; split; [discriminate | tauto]).
  left. split; reflexivity.
Qed.

Lemma normalize_code (t : string) :
  sall is_alpha t = true -> 2 <= String.length t ->
  sall is_upper (normalize t) = true /\
  2 <= String.length (normalize t) /\
  (String.length t = 3 \/ assoc (lower t) mapping <> None ->
   String.length (normalize t) = 3).
Proof.
  intros Halpha Hlen.
  destruct (normalize_cases t) as [[Hnone ->] | [Hsome Hin]].
  - rewrite upper_length. split; [now apply upper_alpha|].
    split; [exact Hlen|]. intros [H | H]; [exact H | contradiction].
  - simpl in Hin.
    destruct Hin as [<- | [<- | [<- | [<- | [<- | []]]]]]; simpl;
      repeat split; auto; lia.
Qed.

(** C6, as amended: a currency code of rule 1, after [normalize], is a
    word of at least two upper-case letters; it has three letters when the
    token has three letters or is a key of the synonym table.  The codes
    of rules 2 and 3 are three upper-case letters. *)
Theorem normalized_codes_upper_letters (msg : string) (g : groups) :
  (search conversion_re msg = Some g ->
   forall i, i = 2 \/ i = 3 ->
     sall is_upper (normalize (group i g)) = true /\
     2 <= String.length (normalize (group i g)) /\
     (String.length (group i g) = 3 \/
      assoc (lower (group i g)) mapping <> None ->
      String.length (normalize (group i g)) = 3)) /\
  (search date_re msg = Some g \/ search range_re msg = Some g ->
   forall i, i = 1 \/ i = 2 ->
     sall is_upper (upper (group i g)) = true /\
     String.length (upper (group i g)) = 3).
Proof.
  split.
  - intros Hs i Hi. apply search_sound in Hs. destruct Hs as [t Hm].
    apply conversion_re_groups in Hm.
    destruct Hm as (t1 & t2 & t3 & -> & [Ha2 Hl2] & [Ha3 Hl3]).
    destruct Hi as [-> | ->]; simpl group; now apply normalize_code.
  - intros Hs i Hi.
    assert (Hg : exists t1 t2 t3,
               g = [(3, t3); (2, t2); (1, t1)] /\
               (sall is_alpha t1 = true /\ String.length t1 = 3) /\
               (sall is_alpha t2 = true /\ String.length t2 = 3)).
    { destruct Hs as [Hs | Hs]; apply search_sound in Hs; destruct Hs as [t Hm];
        [now apply date_re_groups in Hm | now apply range_re_groups in Hm]. }
    destruct Hg as (t1 & t2 & t3 & -> & [Ha1 Hl1] & [Ha2 Hl2]).
    destruct Hi as [-> | ->]; simpl group; rewrite upper_length;
      (split; [now apply upper_alpha | assumption]).
Qed.

Lemma normalized_codes_upper_letters_witness :
  (sall is_upper (normalize "in") = true /\
   2 <= String.length (normalize "in") /\
   (String.length "in" = 3 \/ assoc (lower "in") mapping <> None ->
    String.length (normalize "in") = 3)) /\
  (sall is_upper (upper "eur") = true /\ String.length (upper "eur") = 3).
Proof.
  split.
  - exact (proj1 (@normalized_codes_upper_letters "12.5usdin"
                    [(3, "in"); (2, "usd"); (1, "12.5")]) eq_refl 3
                 (or_intror eq_refl)).
  - exact (proj2 (@normalized_codes_upper_letters range_message
                    [(3, "30"); (2, "eur"); (1, "usd")])
                 (or_intror eq_refl) 2 (or_intror eq_refl)).
Defined.

(** C6, as stated, fails: rule 1 accepts the plural words, which are in
    no table, and sends them upstream in upper case. *)
Lemma plural_words_not_three_letters :
  search conversion_re "5 dollars to rupees"
  = Some [(3, "rupees"); (2, "dollars"); (1, "5")] /\
  normalize "dollars" = "DOLLARS" /\ normalize "rupees" = "RUPEES" /\
  String.length (normalize "dollars") <> 3 /\
  run (chatbot no_data_world (message "5 dollars to rupees"))
  = (Ok HelpReply, [Latest 5 "DOLLARS" "RUPEES"]).
Proof.
  repeat split; try (vm_compute; reflexivity).
  vm_compute. discriminate.
Qed.

(** Rule 1 with an amount of zero: once the lookup finds a rate, the
    division [converted / float(amount)] raises. *)
Lemma rule1_zero_amount_raises (w : world) (msg : string) (g : groups) (a : Q)
      (res : json) (log : list api_call) :
  let request := Latest a (normalize (group 2 g)) (normalize (group 3 g)) in
  search conversion_re msg = Some g ->
  py_float w (group 1 g) = Some a -> (a == 0)%Q ->
  upstream w request = Ok res ->
  has_rate res (normalize (group 3 g)) = Ok true ->
  exists e, chatbot_on w msg log = (Raise e, log ++ [request]).
Proof.
  intros request Hs Hf Hz Hup Hyes. apply is_zero_iff in Hz.
  unfold chatbot_on, rule1. rewrite Hs. unfold float_of. rewrite Hf.
  unfold bind, lift, call, ret. fold request. rewrite Hup, Hyes.
  destruct (py_getitem res "rates") as [rates|e]; [|eexists; reflexivity].
  destruct (py_getitem rates _) as [converted|e]; [|eexists; reflexivity].
  unfold py_truediv. rewrite Hz.
  destruct converted; eexists; reflexivity.
Qed.

(** C4: the message "0 USD to INR" with an upstream that answers the
    request.  Rule 1 does not fall through: the handler raises
    [ZeroDivisionError]. *)
Theorem chatbot_zero_amount_raises :
  search conversion_re "0 usd to inr" = Some [(3, "inr"); (2, "usd"); (1, "0")] /\
  upstream demo_world (Latest 0 "USD" "INR")
  = Ok (JObj [("amount", JNum 0); ("base", JStr "USD");
              ("rates", JObj [("INR", JNum (0 * 2))])]) /\
  run (chatbot demo_world (message "0 USD to INR"))
  = (Raise ZeroDivisionError, [Latest 0 "USD" "INR"]).
Proof. repeat split; vm_compute; reflexivity. Qed.

(** C5, as stated, fails on /chatbot: an answer without a "rates" field
    makes the rule give up, and the handler ends with the help reply, not
    with an error. *)
Lemma chatbot_no_rates_gives_help :
  upstream no_data_world (Latest 100 "USD" "INR") = Ok not_found /\
  py_in "rates" not_found = Ok false /\
  run (chatbot no_data_world (message "Convert 100 USD to INR"))
  = (Ok HelpReply, [Latest 100 "USD" "INR"]).
Proof. repeat split; vm_compute; reflexivity. Qed.

Lemma has_rate_no_field (kv : list (string * json)) (to_currency : string) :
  assoc "rates" kv = None -> has_rate (JObj kv) to_currency = Ok false.
Proof. intros H. unfold has_rate, py_in. now rewrite H. Qed.

Lemma rule1_no_rates (w : world) (msg : string) (log log' : list api_call)
      (r : reply) :
  no_rates_field w -> rule1 w msg log <> (Ok (Some r), log').
Proof.
  intros Hno. unfold rule1. destruct (search conversion_re msg) as [g|];
    [|discriminate].
  unfold float_of. destruct (py_float w _) as [a|]; [|discriminate].
  unfold bind, lift, call, ret.
  destruct (Hno (Latest a (normalize (group 2 g)) (normalize (group 3 g))))
    as (kv & -> & Hkv).
  rewrite (@has_rate_no_field kv _ Hkv). discriminate.
Qed.

Lemma rule2_no_rates (w : world) (msg : string) (log log' : list api_call)
      (r : reply) :
  no_rates_field w -> rule2 w msg log <> (Ok (Some r), log').
Proof.
  intros Hno. unfold rule2. destruct (search date_re msg) as [g|];
    [|discriminate].
  unfold bind, lift, call, ret.
  destruct (Hno (OnDate (group 3 g) (upper (group 1 g)) (upper (group 2 g))))
    as (kv & -> & Hkv).
  rewrite (@has_rate_no_field kv _ Hkv). discriminate.
Qed.

Lemma rule3_no_rates (w : world) (msg : string) (log log' : list api_call)
      (r : reply) :
  no_rates_field w -> rule3 w msg log <> (Ok (Some r), log').
Proof.
  intros Hno. unfold rule3. destruct (search range_re msg) as [g|];
    [|discriminate].
  unfold bind, lift, call, ret.
  destruct (py_int (group 3 g)) as [days|]; [|discriminate].
  destruct (date_minus_days (today w) days) as [start_date|]; [|discriminate].
  destruct (Hno (Between start_date (today w) (upper (group 1 g))
                         (upper (group 2 g)))) as (kv & -> & Hkv).
  unfold py_in. rewrite Hkv. discriminate.
Qed.

(** * Further properties of the handlers *)

(** ** Arithmetic of the stride *)

Lemma mod_succ (i step : nat) :
  0 < step ->
  S i mod step = if S (i mod step) =? step then 0 else S (i mod step).
Proof.
  intros Hpos.
  pose proof (Nat.div_mod_eq i step) as Hi.
  pose proof (Nat.mod_upper_bound i step ltac:(lia)) as Hr.
  destruct (Nat.eqb_spec (S (i mod step)) step) as [E|E]; symmetry.
  - apply Nat.mod_unique with (q := S (i / step)); nia.
  - apply Nat.mod_unique with (q := i / step); nia.
Qed.

Lemma ceil_div_succ (i step : nat) :
  0 < step ->
  ceil_div (S i) step = ceil_div i step + (if i mod step =? 0 then 1 else 0).
Proof.
  intros Hpos. unfold ceil_div.
  pose proof (Nat.div_mod_eq i step) as Hi.
  pose proof (Nat.mod_upper_bound i step ltac:(lia)) as Hr.
  assert (H1 : (S i + step - 1) / step = S (i / step)).
  { symmetry. apply Nat.div_unique with (r := i mod step); nia. }
  rewrite H1.
  destruct (Nat.eqb_spec (i mod step) 0) as [E|E].
  - assert (H2 : (i + step - 1) / step = i / step).
    { symmetry. apply Nat.div_unique with (r := step - 1); nia. }
    lia.
  - assert (H2 : (i + step - 1) / step = S (i / step)).
    { symmetry. apply Nat.div_unique with (r := i mod step - 1); nia. }
    lia.
Qed.

Lemma ceil_div_0 (step : nat) : 0 < step -> ceil_div 0 step = 0.
Proof.
  intros Hpos. unfold ceil_div. apply Nat.div_small. lia.
Qed.

Lemma sample_from_count {A : Type} (step : nat) (l : list A) :
  0 < step ->
  forall i, List.length (sample_from step i l) + ceil_div i step
            = ceil_div (i + List.length l) step.
Proof.
  intros Hpos. induction l as [|x l IH]; intros i; cbn [sample_from List.length].
  - now rewrite Nat.add_0_r.
  - replace (i + S (List.length l)) with (S i + List.length l) by lia.
    rewrite <- IH, (ceil_div_succ i Hpos).
    destruct (i mod step =? 0); cbn [List.length]; lia.
Qed.

Lemma stride_pos (n max_points : nat) : 0 < stride n max_points.
Proof. unfold stride. lia. Qed.

(** The distance from [i] to the next multiple of [step]. *)
Lemma to_next_multiple (i step : nat) :
  0 < step ->
  if i mod step =? 0
  then (step - i mod step) mod step = 0 /\
       (step - S i mod step) mod step = step - 1
  else (step - i mod step) mod step = S ((step - S i mod step) mod step).
Proof.
  intros Hpos.
  pose proof (Nat.mod_upper_bound i step ltac:(lia)) as Hr.
  rewrite (mod_succ i Hpos).
  destruct (Nat.eqb_spec (i mod step) 0) as [E|E].
  - rewrite E, Nat.sub_0_r, Nat.Div0.mod_same. split; [reflexivity|].
    destruct (Nat.eqb_spec 1 step) as [<-|E1]; [reflexivity|].
    apply Nat.mod_small. lia.
  - rewrite (Nat.mod_small (step - i mod step)) by lia.
    destruct (Nat.eqb_spec (S (i mod step)) step) as [E1|E1].
    + rewrite Nat.sub_0_r, Nat.Div0.mod_same. lia.
    + rewrite (Nat.mod_small (step - S (i mod step))) by lia. lia.
Qed.

Lemma sample_from_nth {A : Type} (step : nat) (l : list A) :
  0 < step ->
  forall i k,
    nth_error (sample_from step i l) k
    = nth_error l ((step - i mod step) mod step + k * step).
Proof.
  intros Hpos. induction l as [|x l IH]; intros i k; cbn [sample_from].
  - now rewrite !nth_error_nil.
  - pose proof (to_next_multiple i Hpos) as Hn.
    destruct (i mod step =? 0).
    + destruct Hn as [H0 H1]. rewrite H0. destruct k as [|k]; [reflexivity|].
      cbn [nth_error]. rewrite IH, H1.
      replace (0 + S k * step) with (S (step - 1 + k * step)) by lia.
      reflexivity.
    + rewrite Hn, IH. reflexivity.
Qed.

(** ** The sampler *)

(** X1: the number of points the sampler keeps is the length of the
    series divided by the stride, rounded up. *)
Theorem sample_length {A : Type} (max_points : nat) (series : list A) :
  0 < max_points ->
  List.length (sample max_points series)
  = ceil_div (List.length series) (stride (List.length series) max_points).
Proof.
  intros _. unfold sample.
  pose proof (sample_from_count series (stride_pos (List.length series) max_points) 0)
    as H.
  rewrite (ceil_div_0 (stride_pos _ _)) in H. simpl in H. lia.
Qed.

Lemma sample_length_witness :
  List.length (sample 100 (seq 0 250)) = ceil_div 250 (stride 250 100).
Proof.
  replace 250 with (List.length (seq 0 250)) at 2 3 by apply length_seq.
  apply (sample_length (seq 0 250)). lia.
Defined.

Lemma sample_length_lt_twice {A : Type} (max_points : nat) (series : list A) :
  0 < max_points ->
  List.length (sample max_points series) <= 2 * max_points - 1.
Proof.
  intros Hpos. unfold sample.
  pose proof (sample_from_count series (stride_pos (List.length series) max_points) 0)
    as H.
  rewrite (ceil_div_0 (stride_pos _ _)) in H. simpl in H.
  rewrite Nat.add_0_r in H. rewrite H. clear H.
  set (n := List.length series). unfold stride, ceil_div.
  pose proof (Nat.div_mod_eq n max_points) as Hn.
  pose proof (Nat.mod_upper_bound n max_points ltac:(lia)) as Hr.
  destruct (Nat.eq_dec (n / max_points) 0) as [E|E].
  - rewrite E. change (Nat.max 1 0) with 1.
    rewrite Nat.add_sub, Nat.div_1_r. nia.
  - replace (Nat.max 1 (n / max_points)) with (n / max_points) by lia.
    assert (Hlt : (n + n / max_points - 1) / (n / max_points) < 2 * max_points);
      [|lia].
    apply Nat.Div0.div_lt_upper_bound. nia.
Qed.

(** X2: the sampler returns fewer than [2 * max_points] points, and no
    more than the series has. *)
Theorem sample_length_bound {A : Type} (max_points : nat) (series : list A) :
  0 < max_points ->
  List.length (sample max_points series) <= 2 * max_points - 1 /\
  List.length (sample max_points series) <= List.length series.
Proof.
  intros Hpos. split; [now apply sample_length_lt_twice|].
  apply sample_from_length_le.
Qed.

Lemma sample_length_bound_witness :
  List.length (sample 100 (seq 0 1234)) <= 2 * 100 - 1 /\
  List.length (sample 100 (seq 0 1234)) <= List.length (seq 0 1234).
Proof. apply (sample_length_bound (seq 0 1234)). lia. Defined.

(** X3: the [k]-th point of the sampled series is the point of the input
    at index [k * stride]: the kept points are evenly spaced, in their
    original order. *)
Theorem sample_nth {A : Type} (max_points : nat) (series : list A) (k : nat) :
  0 < max_points ->
  nth_error (sample max_points series) k
  = nth_error series (k * stride (List.length series) max_points).
Proof.
  intros _. unfold sample.
  rewrite (sample_from_nth series (stride_pos (List.length series) max_points) 0 k).
  rewrite Nat.Div0.mod_0_l, Nat.sub_0_r, Nat.Div0.mod_same. reflexivity.
Qed.

Lemma sample_nth_witness :
  nth_error (sample 100 (seq 0 250)) 7
  = nth_error (seq 0 250) (7 * stride (List.length (seq 0 250)) 100).
Proof. apply (sample_nth (seq 0 250) 7). lia. Defined.

(** ** /historical, further *)

Lemma in_list_In (s : string) (l : list string) :
  in_list s l = true <-> In s l.
Proof.
  unfold in_list. rewrite existsb_exists. split.
  - intros (x & Hx & E). apply String.eqb_eq in E. now subst.
  - intros H. exists s. split; [exact H | apply String.eqb_refl].
Qed.

Lemma start_of_range_None (end_date : Z) (range_param : string) :
  start_of_range end_date range_param = None <-> ~ In range_param range_tokens.
Proof.
  unfold start_of_range, range_tokens.
  destruct (in_list range_param ["7d"; "7days"]) eqn:E1;
    [apply in_list_In in E1; simpl in *; split; [discriminate | tauto]|].
  destruct (in_list range_param ["30d"; "1m"; "30days"]) eqn:E2;
    [apply in_list_In in E2; simpl in *; split; [discriminate | tauto]|].
  destruct (in_list range_param ["365d"; "1y"; "year"]) eqn:E3;
    [apply in_list_In in E3; simpl in *; split; [discriminate | tauto]|].
  destruct (in_list range_param ["all"; "max"]) eqn:E4;
    [apply in_list_In in E4; simpl in *; split; [discriminate | tauto]|].
  split; [intros _ | reflexivity].
  assert (N1 : ~ In range_param ["7d"; "7days"])
    by (rewrite <- in_list_In; congruence).
  assert (N2 : ~ In range_param ["30d"; "1m"; "30days"])
    by (rewrite <- in_list_In; congruence).
  assert (N3 : ~ In range_param ["365d"; "1y"; "year"])
    by (rewrite <- in_list_In; congruence).
  assert (N4 : ~ In range_param ["all"; "max"])
    by (rewrite <- in_list_In; congruence).
  simpl in *. tauto.
Qed.

(** What a run of /historical that answers 200 went through. *)
Lemma historical_200_inv (w : world) (a : args) (body : json)
      (log : list api_call) :
  run (historical_data w a) = (Ok (body, 200), log) ->
  exists start_date res items dates rates,
    start_of_range (today w) (lower (args_get_str a "range" "7d"))
    = Some (Ok start_date) /\
    log = [historical_request w a start_date] /\
    upstream w (historical_request w a start_date) = Ok res /\
    py_getitem res "rates" = Ok (JObj items) /\
    sample_loop (stride (List.length (sorted items)) 100)
                (upper (args_get_str a "to" "INR")) 0 (sorted items) [] []
    = Ok (dates, rates) /\
    body = historical_body a dates rates.
Proof.
  unfold run, historical_data.
  destruct (start_of_range _ _) as [[start_date|e]|] eqn:Hstart;
    [| |discriminate].
  2:{ unfold bind, lift. discriminate. }
  unfold bind, lift, call, ret. simpl app.
  fold (historical_request w a start_date).
  destruct (upstream w _) as [res|e] eqn:Hup; [|discriminate].
  destruct (py_in "rates" res) as [[|]|e]; simpl; try discriminate.
  destruct (py_getitem res "rates") as [rates_obj|e] eqn:Hrates; [|discriminate].
  destruct rates_obj as [| | | | |items]; simpl; try discriminate.
  destruct (sample_loop _ _ 0 (sorted items) [] []) as [[dates rates]|e] eqn:Hloop;
    [|discriminate].
  intros H. inversion H; subst. clear H.
  exists start_date, res, items, dates, rates. repeat split; assumption.
Qed.

(** X4: a 200 answer of /historical carries as many rates as dates, no
    more than the upstream gave and never more than 199. *)
Theorem historical_points_bound (w : world) (a : args) (body : json)
        (log : list api_call) :
  run (historical_data w a) = (Ok (body, 200), log) ->
  exists request res items dates rates,
    log = [request] /\ upstream w request = Ok res /\
    py_getitem res "rates" = Ok (JObj items) /\
    body = historical_body a dates rates /\
    List.length rates = List.length dates /\
    List.length dates <= List.length items /\
    List.length dates <= 199.
Proof.
  intros H. apply historical_200_inv in H.
  destruct H as (start_date & res & items & dates & rates
                 & _ & Hlog & Hup & Hrates & Hloop & Hbody).
  apply sample_loop_spec in Hloop. destruct Hloop as [Hd (vs & Hr & Hf)].
  simpl in Hd, Hr. subst dates rates.
  exists (historical_request w a start_date), res, items. eexists _, _.
  repeat split; try eassumption.
  - apply Forall2_length in Hf. now rewrite length_map, Hf.
  - rewrite length_map, <- (sorted_length items). apply sample_from_length_le.
  - rewrite length_map.
    exact (@sample_length_lt_twice _ 100 (sorted items) ltac:(lia)).
Qed.

Lemma historical_points_bound_witness :
  exists request res items dates rates,
    [Between 739558 739923 "USD" "INR"] = [request] /\
    upstream (long_world 1000) request = Ok res /\
    py_getitem res "rates" = Ok (JObj items) /\
    fst (match fst (run (historical_data (long_world 1000) [("range", "1y")]))
         with Ok r => r | Raise _ => (JNull, 0) end)
    = historical_body [("range", "1y")] dates rates /\
    List.length rates = List.length dates /\
    List.length dates <= List.length items /\
    List.length dates <= 199.
Proof.
  refine (@historical_points_bound (long_world 1000) [("range", "1y")] _ _ _).
  vm_compute. reflexivity.
Defined.



Lemma sample_loop_ok (step : nat) (to_currency : string)
      (items : list (string * json)) :
  forall i dates rates,
    Forall (has_currency to_currency) (sample_from step i items) ->
    exists r, sample_loop step to_currency i items dates rates = Ok r.
Proof.
  induction items as [|[date data] rest IH]; cbn [sample_loop sample_from];
    intros i ds rs H.
  - eexists; reflexivity.
  - destruct (i mod step =? 0); [|now apply IH].
    inversion H as [|? ? [v Hv] Hrest]; subst. simpl in Hv. rewrite Hv.
    now apply IH.
Qed.

(** X5: the loop of /historical returns exactly when every item it keeps
    holds a rate for the target currency; the items it skips are never
    read. *)
Theorem sample_loop_ok_iff (step : nat) (to_currency : string)
        (items : list (string * json)) (i : nat)
        (dates : list string) (rates : list json) :
  (exists r, sample_loop step to_currency i items dates rates = Ok r) <->
  Forall (has_currency to_currency) (sample_from step i items).
Proof.
  split.
  - intros [[ds rs] H]. apply sample_loop_spec in H.
    destruct H as [_ (vs & _ & Hf)].
    induction Hf as [|item v kept vs Hv _ IH]; constructor; [|exact IH].
    now exists v.
  - apply sample_loop_ok.
Qed.



(** X7: /historical answers 400, with its fixed message and without a
    request to the upstream, exactly when the range token, in lower case,
    is none of the ten it knows. *)
Theorem historical_invalid_range_iff (w : world) (a : args) :
  let range_param := lower (args_get_str a "range" "7d") in
  (~ In range_param range_tokens ->
   forall log, historical_data w a log = (Ok invalid_range, log)) /\
  (In range_param range_tokens ->
   forall body log log', historical_data w a log <> (Ok (body, 400), log')).
Proof.
  intros range_param. split.
  - intros Hnot log. apply (start_of_range_None (today w)) in Hnot.
    unfold historical_data. fold range_param. rewrite Hnot. reflexivity.
  - intros Hin body log log'. unfold historical_data. fold range_param.
    destruct (start_of_range (today w) range_param) as [[start_date|e]|] eqn:E.
    + unfold bind, lift, call, ret.
      destruct (upstream w _) as [res|]; [|discriminate].
      destruct (py_in "rates" res) as [[|]|]; simpl; try discriminate.
      destruct (py_getitem res "rates") as [rates_obj|]; [|discriminate].
      destruct (py_items rates_obj); [|discriminate].
      destruct (sample_loop _ _ _ _ _ _); discriminate.
    + unfold bind, lift. discriminate.
    + apply start_of_range_None in E. contradiction.
Qed.

Lemma historical_invalid_range_iff_witness :
  historical_data demo_world [("range", "2W")] [] = (Ok invalid_range, []) /\
  (forall body log',
      historical_data demo_world [("range", "MAX")] [] <> (Ok (body, 400), log')).
Proof.
  split.
  - apply (proj1 (historical_invalid_range_iff demo_world [("range", "2W")])).
    vm_compute. intuition discriminate.
  - intros body log'.
    apply (proj2 (historical_invalid_range_iff demo_world [("range", "MAX")])).
    vm_compute. tauto.
Defined.

Lemma date_minus_days_ok (d n : Z) :
  (0 <= n <= 999999999)%Z ->
  (MINYEAR_ordinal <= d - n)%Z -> (d - n <= MAXYEAR_ordinal)%Z ->
  date_minus_days d n = Ok (d - n)%Z.
Proof.
  intros Hn Hmin Hmax. unfold date_minus_days.
  replace (999999999 <? Z.abs n)%Z with false by (symmetry; apply Z.ltb_ge; lia).
  cbv zeta.
  replace (d - n <? MINYEAR_ordinal)%Z with false by (symmetry; apply Z.ltb_ge; lia).
  replace (MAXYEAR_ordinal <? d - n)%Z with false by (symmetry; apply Z.ltb_ge; lia).
  reflexivity.
Qed.

(** Once the start date is known, /historical sends one request, whatever
    comes back. *)
Lemma historical_log (w : world) (a : args) (start_date : Z) :
  start_of_range (today w) (lower (args_get_str a "range" "7d"))
  = Some (Ok start_date) ->
  snd (run (historical_data w a)) = [historical_request w a start_date].
Proof.
  intros Hstart. unfold run, historical_data. rewrite Hstart.
  unfold bind, lift, call, ret. simpl app.
  fold (historical_request w a start_date).
  destruct (upstream w _) as [res|]; [|reflexivity].
  destruct (py_in "rates" res) as [[|]|]; simpl; try reflexivity.
  destruct (py_getitem res "rates") as [rates_obj|]; [|reflexivity].
  destruct (py_items rates_obj); [|reflexivity].
  destruct (sample_loop _ _ _ _ _ _); reflexivity.
Qed.

(** X8: for each of the ten range tokens /historical sends exactly one
    request, for the span that ends today and starts 7, 30 or 365 days
    earlier, or on 1999-01-04 for [all] and [max], whatever today is. *)
Theorem historical_request_window (w : world) (a : args) :
  let range_param := lower (args_get_str a "range" "7d") in
  (365 < today w <= MAXYEAR_ordinal)%Z ->
  In range_param range_tokens ->
  exists start_date,
    snd (run (historical_data w a)) = [historical_request w a start_date] /\
    (In range_param ["7d"; "7days"] -> start_date = (today w - 7)%Z) /\
    (In range_param ["30d"; "1m"; "30days"] -> start_date = (today w - 30)%Z) /\
    (In range_param ["365d"; "1y"; "year"] -> start_date = (today w - 365)%Z) /\
    (In range_param ["all"; "max"] -> start_date = epoch_start).
Proof.
  intros range_param Htoday Hin. unfold MAXYEAR_ordinal in Htoday.
  assert (H7 : date_minus_days (today w) 7 = Ok (today w - 7)%Z)
    by (apply date_minus_days_ok; unfold MINYEAR_ordinal, MAXYEAR_ordinal; lia).
  assert (H30 : date_minus_days (today w) 30 = Ok (today w - 30)%Z)
    by (apply date_minus_days_ok; unfold MINYEAR_ordinal, MAXYEAR_ordinal; lia).
  assert (H365 : date_minus_days (today w) 365 = Ok (today w - 365)%Z)
    by (apply date_minus_days_ok; unfold MINYEAR_ordinal, MAXYEAR_ordinal; lia).
  assert (Hstart :
    exists start_date,
      start_of_range (today w) range_param = Some (Ok start_date) /\
      (In range_param ["7d"; "7days"] -> start_date = (today w - 7)%Z) /\
      (In range_param ["30d"; "1m"; "30days"] -> start_date = (today w - 30)%Z) /\
      (In range_param ["365d"; "1y"; "year"] -> start_date = (today w - 365)%Z) /\
      (In range_param ["all"; "max"] -> start_date = epoch_start)).
  { unfold range_tokens in Hin. simpl in Hin.
    repeat match type of Hin with
      | _ \/ _ => destruct Hin as [Hin | Hin]
      end; try contradiction; rewrite <- Hin;
      unfold start_of_range; cbn [in_list existsb String.eqb Ascii.eqb Bool.eqb orb];
      rewrite ?H7, ?H30, ?H365; eexists; (split; [reflexivity|]);
      simpl; intuition discriminate. }
  destruct Hstart as (start_date & Hs & Htable).
  exists start_date. split; [|exact Htable].
  now apply historical_log.
Qed.

Lemma historical_request_window_witness :
  exists start_date,
    snd (run (historical_data demo_world [("range", "ALL"); ("to", "eur")]))
    = [historical_request demo_world [("range", "ALL"); ("to", "eur")] start_date] /\
    start_date = epoch_start.
Proof.
  destruct (@historical_request_window demo_world
              [("range", "ALL"); ("to", "eur")]) as (s & Hlog & _ & _ & _ & Hall).
  - vm_compute. split; [reflexivity | discriminate].
  - vm_compute. tauto.
  - exists s. split; [exact Hlog|]. apply Hall. vm_compute. tauto.
Defined.

(** ** /convert, further *)

(** /convert past its guard, up to the answer of the upstream. *)
Lemma convert_after_guard (w : world) (a : args) (amount : Q) (res : json) :
  args_get_float w a "amount" = Some amount -> ~ (amount == 0)%Q ->
  upstream w (convert_request a amount) = Ok res ->
  run (convert_currency w a)
  = (rates <- lift (py_getitem res "rates") ;;
     converted <- lift (py_dict_get rates (upper (args_get_str a "to" "INR"))) ;;
     rate <- lift (if truthy converted
                   then match py_truediv converted amount with
                        | Ok r => Ok (Some r)
                        | Raise e => Raise e
                        end
                   else Ok None) ;;
     ret (convert_body a amount converted (opt_num rate), 200))
      [convert_request a amount].
Proof.
  intros Ha Hnz Hup. unfold run, convert_currency.
  rewrite Ha, (not_zero_false Hnz). unfold bind at 1, call. simpl app.
  fold (convert_request a amount). rewrite Hup. reflexivity.
Qed.

(** X10: when the answer of the upstream has no "rates" field, /convert
    raises [KeyError] after its request: there is no error response. *)
Theorem convert_no_rates_field_raises (w : world) (a : args) (amount : Q)
        (kv : list (string * json)) :
  args_get_float w a "amount" = Some amount -> ~ (amount == 0)%Q ->
  upstream w (convert_request a amount) = Ok (JObj kv) ->
  assoc "rates" kv = None ->
  run (convert_currency w a) = (Raise KeyError, [convert_request a amount]).
Proof.
  intros Ha Hnz Hup Hno. rewrite (convert_after_guard w a Ha Hnz Hup).
  unfold bind, lift, py_getitem. now rewrite Hno.
Qed.

Lemma convert_no_rates_field_raises_witness :
  run (convert_currency no_data_world [("amount", "2.50"); ("to", "chf")])
  = (Raise KeyError, [convert_request [("amount", "2.50"); ("to", "chf")] 2.50]).
Proof.
  apply (@convert_no_rates_field_raises no_data_world
           [("amount", "2.50"); ("to", "chf")] 2.50
           [("message", JStr "not found")]);
    solve [reflexivity | discriminate].
Defined.

(** X11: a target currency that is missing from the "rates" of the
    upstream, or whose converted value is zero, is not an error on
    /convert: the answer is a 200 whose rate is null (and whose converted
    value is null when the currency is missing). *)
Theorem convert_null_rate (w : world) (a : args) (amount : Q)
        (kv rates : list (string * json)) :
  let to_currency := upper (args_get_str a "to" "INR") in
  args_get_float w a "amount" = Some amount -> ~ (amount == 0)%Q ->
  upstream w (convert_request a amount) = Ok (JObj kv) ->
  assoc "rates" kv = Some (JObj rates) ->
  (assoc to_currency rates = None ->
   run (convert_currency w a)
   = (Ok (convert_body a amount JNull JNull, 200), [convert_request a amount])) /\
  (forall c, assoc to_currency rates = Some (JNum c) -> (c == 0)%Q ->
   run (convert_currency w a)
   = (Ok (convert_body a amount (JNum c) JNull, 200),
      [convert_request a amount])).
Proof.
  intros to_currency Ha Hnz Hup Hrates.
  rewrite (convert_after_guard w a Ha Hnz Hup).
  unfold bind, lift, ret, py_getitem. rewrite Hrates.
  unfold py_dict_get. fold to_currency. split.
  - intros Hnone. rewrite Hnone. reflexivity.
  - intros c Hc Hz. rewrite Hc. apply is_zero_iff in Hz.
    unfold truthy. rewrite Hz. reflexivity.
Qed.

Lemma convert_null_rate_witness :
  run (convert_currency eur_only_world [("amount", "5")])
  = (Ok (convert_body [("amount", "5")] 5 JNull JNull, 200),
     [convert_request [("amount", "5")] 5]).
Proof.
  refine (proj1 (@convert_null_rate eur_only_world [("amount", "5")] 5
                   [("rates", JObj [("EUR", JNum 1)])] [("EUR", JNum 1)]
                   eq_refl _ eq_refl eq_refl) eq_refl).
  discriminate.
Defined.



(** ** /chatbot, further *)

(** The text a successful [search] matched lies inside the message. *)
Lemma search_within (r : regex) (s : string) (g : groups) :
  search r s = Some g ->
  exists pre t post, s = (pre ++ t ++ post)%string /\ Matches r t [] g.
Proof.
  induction s as [|c s IH]; cbn [search];
    destruct (rmatch r _ [] (fun _ g0 => Some g0)) as [g0|] eqn:E; intros H;
    try discriminate.
  - inversion H; subst g0. apply rmatch_sound in E.
    destruct E as (t & s' & g' & Hs & M & Hk). inversion Hk; subst.
    exists EmptyString, t, s'. split; [exact Hs | exact M].
  - inversion H; subst g0. apply rmatch_sound in E.
    destruct E as (t & s' & g' & Hs & M & Hk). inversion Hk; subst.
    exists EmptyString, t, s'. split; [exact Hs | exact M].
  - apply IH in H. destruct H as (pre & t & post & -> & M).
    exists (String c pre), t, post. split; [reflexivity | exact M].
Qed.

Lemma sany_app (p : ascii -> bool) (a b : string) :
  sany p (a ++ b) = sany p a || sany p b.
Proof.
  induction a as [|c a IH]; simpl; [reflexivity|].
  now rewrite IH, orb_assoc.
Qed.

Lemma sall_sany (p : ascii -> bool) (s : string) :
  sall p s = true -> 1 <= String.length s -> sany p s = true.
Proof.
  destruct s as [|c s]; simpl; [lia|].
  intros H _. apply andb_true_iff in H. destruct H as [-> _]. reflexivity.
Qed.

Ltac digit_inside :=
  repeat match goal with
    | H : sall (in_class CDigit) ?d = true, L : _ <= String.length ?d |- _ =>
        apply sall_sany in H; [|simpl in L; lia]; clear L
    end;
  rewrite ?sany_app;
  repeat match goal with
    | H : sany (in_class CDigit) ?d = true |- _ =>
        change (in_class CDigit) with is_digit in H; rewrite H; clear H
    end;
  rewrite ?orb_true_r; reflexivity.

Lemma conversion_re_digit (t : string) (g : groups) :
  Matches conversion_re t [] g -> sany is_digit t = true.
Proof.
  unfold conversion_re, plus, star. intros H.
  inversion H; subst; clear H.
  match goal with
  | H : Matches (Group 1 _) _ _ _ |- _ => inversion H; subst; clear H
  end.
  match goal with
  | H : Matches (Seq (Rep CDigit 1 None) _) _ _ _ |- _ =>
      inversion H; subst; clear H
  end.
  match goal with
  | H : Matches (Rep CDigit 1 None) _ _ _ |- _ => inversion H; subst; clear H
  end.
  digit_inside.
Qed.

Lemma range_re_days (t : string) (g : groups) :
  Matches range_re t [] g ->
  sany is_digit t = true /\
  sall is_digit (group 3 g) = true /\ 1 <= String.length (group 3 g).
Proof.
  unfold range_re, star, plus. intros H.
  inversion H; subst; clear H.
  repeat match goal with
    | H : Matches (Seq _ _) _ _ _ |- _ => inversion H; subst; clear H
    | H : Matches (Group _ currency_code) _ _ _ |- _ =>
        inversion H; subst; clear H
    | H : Matches currency_code _ _ _ |- _ =>
        apply currency_code_text in H; destruct H as (-> & ? & ?)
    | H : Matches (Group 3 _) _ _ _ |- _ => inversion H; subst; clear H
    | H : Matches (Rep CDigit 1 None) _ _ _ |- _ => inversion H; subst; clear H
    end.
  invert_match. cbn [group Nat.eqb]. split; [|split; assumption].
  digit_inside.
Qed.

Lemma date_re_date (t : string) (g : groups) :
  Matches date_re t [] g ->
  sany is_digit t = true /\ String.length (group 3 g) = 10.
Proof.
  unfold date_re, star, exactly. intros H.
  inversion H; subst; clear H.
  repeat match goal with
    | H : Matches (Seq _ _) _ _ _ |- _ => inversion H; subst; clear H
    | H : Matches (Group _ currency_code) _ _ _ |- _ =>
        inversion H; subst; clear H
    | H : Matches currency_code _ _ _ |- _ =>
        apply currency_code_text in H; destruct H as (-> & ? & ?)
    | H : Matches (Group 3 _) _ _ _ |- _ => inversion H; subst; clear H
    | H : Matches (Rep CDigit _ _) _ _ _ |- _ => inversion H; subst; clear H
    | H : Matches (Lit "-") _ _ _ |- _ => inversion H; subst; clear H
    end.
  invert_match.
  all: repeat match goal with
    | H : forall h, Some ?n = Some h -> _ |- _ => specialize (H n eq_refl)
    end.
  all: cbn [group Nat.eqb]; rewrite ?length_append; cbn [String.length].
  all: split; [|lia].
  all: digit_inside.
Qed.

Lemma no_digit_no_match (r : regex) (s : string) :
  (forall t g, Matches r t [] g -> sany is_digit t = true) ->
  sany is_digit s = false -> search r s = None.
Proof.
  intros Hr Hs. destruct (search r s) as [g|] eqn:E; [|reflexivity].
  apply search_within in E. destruct E as (pre & t & post & -> & M).
  apply Hr in M. rewrite !sany_app, M, orb_true_r in Hs. discriminate.
Qed.

Lemma lower_char_digit (c : ascii) : is_digit (lower_char c) = is_digit c.
Proof. destruct c as [[] [] [] [] [] [] [] []]; reflexivity. Qed.

Lemma sany_digit_lower (s : string) :
  sany is_digit (lower s) = sany is_digit s.
Proof.
  unfold lower. induction s as [|c s IH]; simpl; [reflexivity|].
  now rewrite lower_char_digit, IH.
Qed.

Lemma sany_lstrip (p : ascii -> bool) (s : string) :
  sany p s = false -> sany p (lstrip s) = false.
Proof.
  induction s as [|c s IH]; simpl; [reflexivity|]. intros H.
  apply orb_false_iff in H. destruct H as [Hc Hs].
  destruct (is_space c); [now apply IH|]. simpl. now rewrite Hc, Hs.
Qed.

Lemma sany_rstrip (p : ascii -> bool) (s : string) :
  sany p s = false -> sany p (rstrip s) = false.
Proof.
  induction s as [|c s IH]; simpl; [reflexivity|]. intros H.
  apply orb_false_iff in H. destruct H as [Hc Hs]. specialize (IH Hs).
  destruct (rstrip s) as [|d t].
  - destruct (is_space c); simpl; [reflexivity | now rewrite Hc].
  - cbn [sany] in *. now rewrite Hc, IH.
Qed.

Lemma get_message_message (s : string) :
  get_message (message s) = Ok (strip (lower s)).
Proof. reflexivity. Qed.

(** X13: an ASCII message without a decimal digit is never sent
    upstream.  All three patterns ask for a digit, so the handler answers
    the help text and makes no request. *)
Theorem chatbot_no_digit_help (w : world) (s : string) :
  sall is_ascii s = true ->
  sany is_digit s = false ->
  run (chatbot w (message s)) = (Ok HelpReply, []).
Proof.
  intros _ Hs.
  assert (Hm : sany is_digit (strip (lower s)) = false).
  { unfold strip. apply sany_rstrip, sany_lstrip. now rewrite sany_digit_lower. }
  unfold run, chatbot. rewrite get_message_message.
  unfold bind at 1, lift at 1.
  unfold chatbot_on, rules_from_2, rule1, rule2, rule3.
  rewrite (@no_digit_no_match conversion_re (strip (lower s))
             conversion_re_digit Hm).
  rewrite (@no_digit_no_match date_re (strip (lower s))
             (fun t g M => proj1 (@date_re_date t g M)) Hm).
  rewrite (@no_digit_no_match range_re (strip (lower s))
             (fun t g M => proj1 (@range_re_days t g M)) Hm).
  reflexivity.
Qed.

Lemma chatbot_no_digit_help_witness :
  run (chatbot demo_world (message "  What is USD to INR today?  "))
  = (Ok HelpReply, []).
Proof. apply chatbot_no_digit_help; reflexivity. Defined.





(** What a reply of rule 1 went through. *)
Lemma rule1_reply_inv (w : world) (msg : string) (log log' : list api_call)
      (r : reply) :
  rule1 w msg log = (Ok (Some r), log') ->
  exists g a converted rate,
    search conversion_re msg = Some g /\
    py_float w (group 1 g) = Some a /\
    py_truediv converted a = Ok rate /\
    r = ConvertReply (group 1 g) (normalize (group 2 g))
                     (normalize (group 3 g)) converted rate /\
    log' = log ++ [Latest a (normalize (group 2 g)) (normalize (group 3 g))].
Proof.
  unfold rule1. destruct (search conversion_re msg) as [g|]; [|discriminate].
  unfold float_of. destruct (py_float w (group 1 g)) as [a|] eqn:Ef;
    [|discriminate].
  unfold bind, lift, call, ret.
  destruct (upstream w _) as [res|]; [|discriminate].
  destruct (has_rate res _) as [[|]|]; try discriminate.
  destruct (py_getitem res "rates") as [rates|]; [|discriminate].
  destruct (py_getitem rates _) as [converted|]; [|discriminate].
  destruct (py_truediv converted a) as [rate|] eqn:Ed; [|discriminate].
  intros H. inversion H; subst. exists g, a, converted, rate.
  repeat split; assumption.
Qed.

Lemma rule2_not_convert (w : world) (msg : string) (log log' : list api_call)
      (amount f t : string) (converted : json) (rate : Q) :
  rule2 w msg log <> (Ok (Some (ConvertReply amount f t converted rate)), log').
Proof.
  unfold rule2. destruct (search date_re msg) as [g|]; [|discriminate].
  unfold bind, lift, call, ret.
  destruct (upstream w _) as [res|]; [|discriminate].
  destruct (has_rate res _) as [[|]|]; try discriminate.
  destruct (py_getitem res "rates") as [rates|]; [|discriminate].
  destruct (py_getitem rates _); discriminate.
Qed.

Lemma rule3_not_convert (w : world) (msg : string) (log log' : list api_call)
      (amount f t : string) (converted : json) (rate : Q) :
  rule3 w msg log <> (Ok (Some (ConvertReply amount f t converted rate)), log').
Proof.
  unfold rule3. destruct (search range_re msg) as [g|]; [|discriminate].
  unfold bind, lift, call, ret.
  destruct (py_int (group 3 g)) as [days|]; [|discriminate].
  destruct (date_minus_days (today w) days) as [start_date|]; [|discriminate].
  destruct (upstream w _) as [res|]; [|discriminate].
  destruct (py_in "rates" res) as [[|]|]; try discriminate.
  destruct (py_getitem res "rates"); discriminate.
Qed.

(** X15: a conversion reply of /chatbot comes from rule 1 after a single
    request: [float] accepted its amount, the amount is not zero, and its
    rate is the converted number divided by the amount. *)
Theorem convert_reply_rate (w : world) (msg : string)
        (log log' : list api_call) (amount f t : string) (c rate : Q) :
  chatbot_on w msg log = (Ok (ConvertReply amount f t (JNum c) rate), log') ->
  exists a,
    py_float w amount = Some a /\ ~ (a == 0)%Q /\
    rate = (c / a)%Q /\ log' = log ++ [Latest a f t].
Proof.
  unfold chatbot_on, bind at 1.
  destruct (rule1 w msg log) as [[[r1|]|e1] log1] eqn:E1; [| |discriminate].
  - unfold ret. intros H. inversion H; subst. clear H.
    apply rule1_reply_inv in E1.
    destruct E1 as (g & a & converted & rate' & _ & Hf & Hd & Hr & Hlog).
    inversion Hr; subst. clear Hr. exists a.
    unfold py_truediv in Hd. destruct (is_zero a) eqn:Ez; [discriminate|].
    inversion Hd; subst. clear Hd.
    assert (Hnz : ~ (a == 0)%Q).
    { intros Hz. apply is_zero_iff in Hz. congruence. }
    repeat split; assumption.
  - unfold rules_from_2, bind at 1.
    destruct (rule2 w msg log1) as [[[r2|]|e2] log2] eqn:E2; [| |discriminate].
    + unfold ret. intros H. inversion H; subst.
      exfalso. exact (@rule2_not_convert w msg log1 log' _ _ _ _ _ E2).
    + unfold bind at 1.
      destruct (rule3 w msg log2) as [[[r3|]|e3] log3] eqn:E3;
        try discriminate.
      unfold ret. intros H. inversion H; subst.
      exfalso. exact (@rule3_not_convert w msg log2 log' _ _ _ _ _ E3).
Qed.

Lemma convert_reply_rate_witness :
  exists a,
    py_float demo_world "100" = Some a /\ ~ (a == 0)%Q /\
    (100 * 2 / 100 = 100 * 2 / a)%Q /\
    [Latest 100 "USD" "INR"] = [] ++ [Latest a "USD" "INR"].
Proof.
  apply (@convert_reply_rate demo_world "convert 100 usd to inr" []).
  vm_compute. reflexivity.
Defined.



Lemma dot_text (dot : string) :
  sall (in_class (CChar ".")) dot = true -> String.length dot <= 1 ->
  dot = EmptyString \/ dot = ".".
Proof.
  destruct dot as [|c [|d rest]]; simpl; intros H Hlen; [now left| |lia].
  right. rewrite andb_true_r in H. apply Ascii.eqb_eq in H. now subst.
Qed.

(** The text rule 1 takes for the amount: digits, then maybe a dot and
    more digits. *)
Lemma conversion_re_amount (t : string) (g : groups) :
  Matches conversion_re t [] g ->
  exists d1 dot d2,
    group 1 g = (d1 ++ dot ++ d2)%string /\
    sall is_digit d1 = true /\ 1 <= String.length d1 /\
    (dot = EmptyString \/ dot = ".") /\
    sall is_digit d2 = true.
Proof.
  unfold conversion_re, plus, star. intros H.
  inversion H; subst; clear H.
  repeat match goal with
    | H : Matches (Seq _ _) _ _ _ |- _ => inversion H; subst; clear H
    | H : Matches (Group _ currency_word) _ _ _ |- _ =>
        inversion H; subst; clear H
    | H : Matches currency_word _ _ _ |- _ =>
        apply currency_word_text in H; destruct H as (-> & ? & ?)
    | H : Matches (Group 1 _) _ _ _ |- _ => inversion H; subst; clear H
    end.
  invert_match.
  all: cbn [group Nat.eqb].
  all: match goal with
       | Hd1 : sall (in_class CDigit) ?d1 = true,
         Hl1 : 1 <= String.length ?d1,
         Hdot : sall (in_class (CChar ".")) ?dot = true,
         Hle : forall h, Some 1 = Some h -> String.length ?dot <= h,
         Hd2 : sall (in_class CDigit) ?d2 = true
         |- exists _ _ _, (?d1 ++ ?dot ++ ?d2)%string = _ /\ _ =>
           exists d1, dot, d2; split; [reflexivity|]; split; [exact Hd1|];
           split; [exact Hl1|]; split; [|exact Hd2];
           apply dot_text; [exact Hdot | exact (Hle 1 eq_refl)]
       end.
Qed.

Lemma append_nil_r (s : string) : (s ++ EmptyString)%string = s.
Proof. induction s as [|c s IH]; simpl; [reflexivity | now rewrite IH]. Qed.

Lemma digits_value_nonneg (s : string) :
  forall acc, (0 <= acc)%Z -> (0 <= digits_value acc s)%Z.
Proof.
  induction s as [|c s IH]; cbn [digits_value]; intros acc H; [exact H|].
  apply IH. lia.
Qed.

Lemma decimal_fraction_digits (d : string) :
  sall is_digit d = true ->
  forall num den, (0 <= num)%Z ->
    exists q, decimal_fraction num den d = Some q /\ (0 <= q)%Q.
Proof.
  induction d as [|c d IH]; cbn [sall decimal_fraction]; intros Hd num den Hnum.
  - exists (num # den). split; [reflexivity|]. unfold Qle. simpl. lia.
  - apply andb_true_iff in Hd. destruct Hd as [Hc Hd]. rewrite Hc.
    apply IH; [exact Hd | lia].
Qed.

Lemma decimal_integer_digits (d : string) (rest : string) :
  sall is_digit d = true ->
  forall num seen,
    decimal_integer num seen (d ++ rest)
    = decimal_integer (digits_value num d)
                      (seen || negb (String.eqb d EmptyString)) rest.
Proof.
  induction d as [|c d IH]; cbn [sall append decimal_integer digits_value];
    intros Hd num seen.
  - cbn. now rewrite orb_false_r.
  - apply andb_true_iff in Hd. destruct Hd as [Hc Hd]. rewrite Hc.
    rewrite (IH Hd). cbn [orb String.eqb negb]. now rewrite orb_true_r.
Qed.

Lemma decimal_float_digit_head (c : ascii) (s : string) :
  is_digit c = true ->
  decimal_float (String c s) = decimal_integer 0 false (String c s).
Proof.
  destruct c as [[] [] [] [] [] [] [] []]; try discriminate; reflexivity.
Qed.

Lemma decimal_float_numeral (d1 dot d2 : string) :
  sall is_digit d1 = true -> 1 <= String.length d1 ->
  dot = EmptyString \/ dot = "." ->
  sall is_digit d2 = true ->
  exists q, decimal_float (d1 ++ dot ++ d2) = Some q /\ (0 <= q)%Q.
Proof.
  intros H1 Hl Hdot H2.
  destruct d1 as [|c d1]; [simpl in Hl; lia|].
  assert (Hc : is_digit c = true)
    by (simpl in H1; apply andb_true_iff in H1; tauto).
  change ((String c d1 ++ dot ++ d2)%string)
    with (String c (d1 ++ dot ++ d2)%string).
  rewrite (@decimal_float_digit_head c _ Hc).
  change (String c (d1 ++ dot ++ d2)%string)
    with ((String c d1 ++ (dot ++ d2))%string).
  rewrite (@decimal_integer_digits (String c d1) (dot ++ d2) H1). cbn [orb String.eqb negb].
  pose proof (@digits_value_nonneg (String c d1) 0%Z ltac:(lia)) as Hn.
  set (n := digits_value 0 (String c d1)) in *.
  destruct Hdot as [-> | ->]; cbn [append].
  - rewrite <- (append_nil_r d2), (@decimal_integer_digits d2 EmptyString H2).
    cbn [orb decimal_integer]. eexists. split; [reflexivity|].
    unfold Qle. simpl. pose proof (@digits_value_nonneg d2 n Hn). lia.
  - cbn [decimal_integer]. change (is_digit ".") with false.
    change (Ascii.eqb "." ".") with true. cbv iota.
    destruct d2 as [|e d2].
    + eexists. split; [reflexivity|]. unfold Qle. simpl. lia.
    + apply decimal_fraction_digits; [exact H2 | exact Hn].
Qed.

(** X17: the amount of rule 1 is an unsigned decimal numeral: one or
    more digits, then maybe a dot and more digits.  [float] accepts it and
    the amount sent upstream is never negative: a minus sign in front of
    the number is not part of the match. *)
Theorem rule1_amount_unsigned (msg : string) (g : groups) :
  search conversion_re msg = Some g ->
  (exists d1 dot d2,
      group 1 g = (d1 ++ dot ++ d2)%string /\
      sall is_digit d1 = true /\ 1 <= String.length d1 /\
      (dot = EmptyString \/ dot = ".") /\
      sall is_digit d2 = true) /\
  exists q, decimal_float (group 1 g) = Some q /\ (0 <= q)%Q.
Proof.
  intros Hs. apply search_sound in Hs. destruct Hs as [t M].
  apply conversion_re_amount in M.
  destruct M as (d1 & dot & d2 & Hg & H1 & Hl & Hdot & H2).
  split; [exists d1, dot, d2; repeat split; assumption|].
  rewrite Hg. now apply decimal_float_numeral.
Qed.

Lemma rule1_amount_unsigned_witness :
  (exists d1 dot d2,
      "12.50" = (d1 ++ dot ++ d2)%string /\
      sall is_digit d1 = true /\ 1 <= String.length d1 /\
      (dot = EmptyString \/ dot = ".") /\
      sall is_digit d2 = true) /\
  exists q, decimal_float "12.50" = Some q /\ (0 <= q)%Q.
Proof.
  apply (@rule1_amount_unsigned "pay -12.50 usd in gbp"
           [(3, "gbp"); (2, "usd"); (1, "12.50")]).
  reflexivity.
Defined.

Lemma py_int_digits (d : string) :
  sall is_digit d = true -> 1 <= String.length d ->
  py_int d = Ok (digits_value 0 d) /\ (0 <= digits_value 0 d)%Z.
Proof.
  intros Hd Hl. split; [|apply digits_value_nonneg; lia].
  unfold py_int. destruct d as [|c d]; [simpl in Hl; lia|]. now rewrite Hd.
Qed.

(** X18: the day count of rule 3 is a run of digits.  When the message
    is ASCII and the run has at most 4300 digits (beyond which [int]
    refuses a numeral since Python 3.11), [int] accepts it and it is
    never negative.  A count that reaches back before [date.min] makes
    the subtraction raise [OverflowError] before any request of the rule;
    otherwise the rule asks for the span of that many days up to today. *)
Theorem rule3_days_overflow (w : world) (msg : string) (g : groups)
        (log : list api_call) :
  sall is_ascii msg = true ->
  search range_re msg = Some g ->
  String.length (group 3 g) <= 4300 ->
  exists days,
    py_int (group 3 g) = Ok days /\ (0 <= days)%Z /\
    ((today w - days < MINYEAR_ordinal)%Z ->
     rule3 w msg log = (Raise OverflowError, log)) /\
    ((MINYEAR_ordinal <= today w - days)%Z ->
     (today w <= MAXYEAR_ordinal)%Z ->
     snd (rule3 w msg log)
     = log ++ [Between (today w - days) (today w) (upper (group 1 g))
                       (upper (group 2 g))]).
Proof.
  intros _ Hs _. pose proof Hs as Hm. apply search_sound in Hm.
  destruct Hm as [t M]. apply range_re_days in M. destruct M as (_ & Hd & Hl).
  destruct (@py_int_digits (group 3 g) Hd Hl) as [Hint Hpos].
  exists (digits_value 0 (group 3 g)). split; [exact Hint|]. split; [exact Hpos|].
  set (days := digits_value 0 (group 3 g)) in *.
  split.
  - intros Hlow. unfold rule3. rewrite Hs, Hint. unfold bind at 1, lift at 1.
    assert (Hdate : date_minus_days (today w) days = Raise OverflowError).
    { unfold date_minus_days. destruct (999999999 <? Z.abs days)%Z; [reflexivity|].
      cbv zeta.
      replace (today w - days <? MINYEAR_ordinal)%Z with true
        by (symmetry; apply Z.ltb_lt; exact Hlow).
      reflexivity. }
    unfold bind at 1, lift at 1. now rewrite Hdate.
  - intros Hmin Hmax.
    assert (Hdate : date_minus_days (today w) days = Ok (today w - days)%Z).
    { apply date_minus_days_ok; unfold MINYEAR_ordinal, MAXYEAR_ordinal in *; lia. }
    unfold rule3. rewrite Hs, Hint. unfold bind, lift, call, ret.
    rewrite Hdate.
    destruct (upstream w _) as [res|]; [|reflexivity].
    destruct (py_in "rates" res) as [[|]|]; try reflexivity.
    destruct (py_getitem res "rates"); reflexivity.
Qed.

Lemma rule3_days_overflow_witness :
  exists days,
    py_int "739923" = Ok days /\ (0 <= days)%Z /\
    ((today demo_world - days < MINYEAR_ordinal)%Z ->
     rule3 demo_world "usd to eur last 739923 days" []
     = (Raise OverflowError, [])) /\
    ((MINYEAR_ordinal <= today demo_world - days)%Z ->
     (today demo_world <= MAXYEAR_ordinal)%Z ->
     snd (rule3 demo_world "usd to eur last 739923 days" [])
     = [] ++ [Between (today demo_world - days) (today demo_world)
                      (upper "usd") (upper "eur")]).
Proof.
  apply (@rule3_days_overflow demo_world "usd to eur last 739923 days"
           [(3, "739923"); (2, "eur"); (1, "usd")] []).
  - reflexivity.
  - vm_compute. reflexivity.
  - simpl. lia.
Defined.

(** X19: a message that rule 1 does not match and rule 2 does is answered
    with the rate of that day, after one request for the date as it was
    written: ten characters, not checked to be a date of the calendar,
    between two codes of three upper-case letters. *)
Theorem chatbot_rule2_reply (w : world) (msg : string) (g : groups)
        (kv rates : list (string * json)) (rate : json)
        (log : list api_call) :
  let from_currency := upper (group 1 g) in
  let to_currency := upper (group 2 g) in
  let date := group 3 g in
  search conversion_re msg = None ->
  search date_re msg = Some g ->
  upstream w (OnDate date from_currency to_currency) = Ok (JObj kv) ->
  assoc "rates" kv = Some (JObj rates) ->
  assoc to_currency rates = Some rate ->
  chatbot_on w msg log
  = (Ok (RateOnDateReply date from_currency to_currency rate),
     log ++ [OnDate date from_currency to_currency]) /\
  String.length date = 10 /\
  (sall is_upper from_currency = true /\ String.length from_currency = 3) /\
  (sall is_upper to_currency = true /\ String.length to_currency = 3).
Proof.
  intros from_currency to_currency date Hno Hs Hup Hrates Hrate.
  split.
  - unfold chatbot_on, rule1. rewrite Hno. unfold bind at 1, ret at 1.
    unfold rules_from_2, rule2. rewrite Hs.
    fold from_currency to_currency date.
    unfold bind, lift, call, ret. rewrite Hup.
    unfold has_rate, py_in, py_getitem. rewrite Hrates, Hrate. reflexivity.
  - apply search_sound in Hs. destruct Hs as [t M].
    pose proof (@date_re_date t g M) as [_ Hlen].
    apply date_re_groups in M.
    destruct M as (t1 & t2 & t3 & Hg & [Ha1 Hl1] & [Ha2 Hl2]).
    split; [exact Hlen|].
    unfold from_currency, to_currency. rewrite Hg. cbn [group Nat.eqb].
    rewrite !upper_length. repeat split; auto using upper_alpha.
Qed.

Lemma chatbot_rule2_reply_witness :
  chatbot_on demo_world "rate of usd to inr on 2023-02-31" []
  = (Ok (RateOnDateReply "2023-02-31" "USD" "INR" (JNum 2)),
     [OnDate "2023-02-31" "USD" "INR"]) /\
  String.length "2023-02-31" = 10 /\
  (sall is_upper "USD" = true /\ String.length "USD" = 3) /\
  (sall is_upper "INR" = true /\ String.length "INR" = 3).
Proof.
  apply (@chatbot_rule2_reply demo_world "rate of usd to inr on 2023-02-31"
           [(3, "2023-02-31"); (2, "inr"); (1, "usd")]
           [("base", JStr "USD"); ("date", JStr "2023-02-31");
            ("rates", JObj [("INR", JNum 2)])]
           [("INR", JNum 2)] (JNum 2) []);
    reflexivity.
Defined.

(** X20: the body of a /chatbot request.  An object without a "message"
    is read as the empty message and gets the help text; a body that is
    not an object, or a message that is not a string, raises
    [AttributeError].  None of them reaches the upstream. *)
Theorem chatbot_body_edges (w : world) :
  (forall kv, assoc "message" kv = None ->
              run (chatbot w (JObj kv)) = (Ok HelpReply, [])) /\
  (forall data, (forall kv, data <> JObj kv) ->
                run (chatbot w data) = (Raise AttributeError, [])) /\
  (forall kv v, assoc "message" kv = Some v -> (forall s, v <> JStr s) ->
                run (chatbot w (JObj kv)) = (Raise AttributeError, [])).
Proof.
  split; [|split].
  - intros kv Hno. unfold run, chatbot, get_message. rewrite Hno. reflexivity.
  - intros data Hnot. unfold run, chatbot.
    destruct data as [| | | | |kv]; try reflexivity.
    exfalso. now apply (Hnot kv).
  - intros kv v Hv Hnot. unfold run, chatbot, get_message. rewrite Hv.
    destruct v as [| | |s| |]; try reflexivity.
    exfalso. now apply (Hnot s).
Qed.

Lemma chatbot_body_edges_witness :
  run (chatbot demo_world (JObj [("text", JStr "100 usd to inr")]))
  = (Ok HelpReply, []) /\
  run (chatbot demo_world (JArr [JStr "100 usd to inr"]))
  = (Raise AttributeError, []) /\
  run (chatbot demo_world (JObj [("message", JNum 100)]))
  = (Raise AttributeError, []).
Proof.
  pose proof (chatbot_body_edges demo_world) as (H1 & H2 & H3).
  split; [|split].
  - apply H1. reflexivity.
  - apply H2. intros kv. discriminate.
  - apply (H3 _ (JNum 100)); [reflexivity | intros s; discriminate].
Defined.

(** ** Exceptions of the upstream *)

Lemma one_request_answered {A : Type} (w : world) (log log' : list api_call)
      (x : A) :
  all_answered w log -> one_request w log (Ok x) log' -> all_answered w log'.
Proof.
  intros Hlog [-> | (c & -> & Hc)]; [exact Hlog|].
  intros c' e Hin Hup. apply in_app_or in Hin. destruct Hin as [Hin | [<- | []]].
  - exact (Hlog c' e Hin Hup).
  - specialize (Hc e Hup). discriminate.
Qed.

Lemma one_request_last {A : Type} (w : world) (log log' : list api_call)
      (o : outcome A) :
  all_answered w log -> one_request w log o log' ->
  forall c e, In c log' -> upstream w c = Raise e ->
              o = Raise e /\ exists l, log' = l ++ [c].
Proof.
  intros Hlog [-> | (c0 & -> & Hc)] c e Hin Hup.
  - exfalso. exact (Hlog c e Hin Hup).
  - apply in_app_or in Hin. destruct Hin as [Hin | [<- | []]].
    + exfalso. exact (Hlog c e Hin Hup).
    + split; [now apply Hc | now exists log].
Qed.

Ltac settle_request c Eu :=
  let H := fresh "H" in
  let e1 := fresh "e" in
  let He1 := fresh "He" in
  intros H; injection H as <- <-; right; exists c;
  (split; [reflexivity|]); intros e1 He1; rewrite Eu in He1;
  first [discriminate He1 | injection He1 as ->; reflexivity].

Lemma rule1_one_request (w : world) (msg : string) (log log' : list api_call)
      (o : outcome (option reply)) :
  rule1 w msg log = (o, log') -> one_request w log o log'.
Proof.
  unfold rule1. destruct (search conversion_re msg) as [g|].
  2:{ intros H. inversion H. now left. }
  unfold float_of. destruct (py_float w (group 1 g)) as [a|].
  2:{ intros H. inversion H. now left. }
  unfold bind, lift, call, ret.
  set (c := Latest a (normalize (group 2 g)) (normalize (group 3 g))).
  destruct (upstream w c) as [res|e0] eqn:Eu; [|settle_request c Eu].
  destruct (has_rate res _) as [[|]|]; try settle_request c Eu.
  destruct (py_getitem res "rates") as [rates|]; [|settle_request c Eu].
  destruct (py_getitem rates _) as [converted|]; [|settle_request c Eu].
  destruct (py_truediv converted a); settle_request c Eu.
Qed.

Lemma rule2_one_request (w : world) (msg : string) (log log' : list api_call)
      (o : outcome (option reply)) :
  rule2 w msg log = (o, log') -> one_request w log o log'.
Proof.
  unfold rule2. destruct (search date_re msg) as [g|].
  2:{ intros H. inversion H. now left. }
  unfold bind, lift, call, ret.
  set (c := OnDate (group 3 g) (upper (group 1 g)) (upper (group 2 g))).
  destruct (upstream w c) as [res|e0] eqn:Eu; [|settle_request c Eu].
  destruct (has_rate res _) as [[|]|]; try settle_request c Eu.
  destruct (py_getitem res "rates") as [rates|]; [|settle_request c Eu].
  destruct (py_getitem rates _); settle_request c Eu.
Qed.

Lemma rule3_one_request (w : world) (msg : string) (log log' : list api_call)
      (o : outcome (option reply)) :
  rule3 w msg log = (o, log') -> one_request w log o log'.
Proof.
  unfold rule3. destruct (search range_re msg) as [g|].
  2:{ intros H. inversion H. now left. }
  unfold bind, lift, call, ret.
  destruct (py_int (group 3 g)) as [days|].
  2:{ intros H. inversion H. now left. }
  destruct (date_minus_days (today w) days) as [start_date|].
  2:{ intros H. inversion H. now left. }
  set (c := Between start_date (today w) (upper (group 1 g)) (upper (group 2 g))).
  destruct (upstream w c) as [res|e0] eqn:Eu; [|settle_request c Eu].
  destruct (py_in "rates" res) as [[|]|]; try settle_request c Eu.
  destruct (py_getitem res "rates"); settle_request c Eu.
Qed.

Lemma convert_one_request (w : world) (a : args) (log : list api_call)
      (o : outcome response) :
  run (convert_currency w a) = (o, log) -> one_request w [] o log.
Proof.
  unfold run, convert_currency.
  destruct (args_get_float w a "amount") as [amount|].
  2:{ intros H. inversion H. now left. }
  destruct (is_zero amount).
  { intros H. inversion H. now left. }
  unfold bind, lift, call, ret. simpl app.
  set (c := Latest amount _ _).
  destruct (upstream w c) as [res|e0] eqn:Eu; [|settle_request c Eu].
  destruct (py_getitem res "rates") as [rates|]; [|settle_request c Eu].
  destruct (py_dict_get rates _) as [converted|]; [|settle_request c Eu].
  destruct (negb false && truthy converted);
    [destruct (py_truediv converted amount)|]; settle_request c Eu.
Qed.

Lemma historical_one_request (w : world) (a : args) (log : list api_call)
      (o : outcome response) :
  run (historical_data w a) = (o, log) -> one_request w [] o log.
Proof.
  unfold run, historical_data.
  destruct (start_of_range _ _) as [[start_date|]|].
  2:{ unfold bind, lift. intros H. inversion H. now left. }
  2:{ intros H. inversion H. now left. }
  unfold bind, lift, call, ret. simpl app.
  set (c := Between start_date _ _ _).
  destruct (upstream w c) as [res|e0] eqn:Eu; [|settle_request c Eu].
  destruct (py_in "rates" res) as [[|]|]; simpl; try settle_request c Eu.
  destruct (py_getitem res "rates") as [rates_obj|]; [|settle_request c Eu].
  destruct (py_items rates_obj); [|settle_request c Eu].
  destruct (sample_loop _ _ _ _ _ _); settle_request c Eu.
Qed.

Lemma nothing_sent (w : world) : all_answered w [].
Proof. intros c e []. Qed.

(** X9: no handler catches an exception of the upstream request.  In a
    run of /convert, of /historical or of /chatbot, a request that
    raises is the last one sent and its exception is the outcome of the
    handler; for /chatbot this holds of the request of each of the three
    rules, so that the rules below are not tried. *)
Theorem upstream_exception_propagates (w : world) :
  (forall a, propagates w (convert_currency w a)) /\
  (forall a, propagates w (historical_data w a)) /\
  (forall data, propagates w (chatbot w data)).
Proof.
  split; [|split].
  - intros a o log c e Hrun. apply convert_one_request in Hrun.
    exact (@one_request_last _ w _ _ _ (nothing_sent w) Hrun c e).
  - intros a o log c e Hrun. apply historical_one_request in Hrun.
    exact (@one_request_last _ w _ _ _ (nothing_sent w) Hrun c e).
  - intros data o log c e. unfold run, chatbot, bind at 1, lift at 1.
    destruct (get_message data) as [msg|].
    2:{ intros H. inversion H. intros []. }
    unfold chatbot_on, bind at 1.
    destruct (rule1 w msg []) as [[[r1|]|e1] l1] eqn:E1;
      apply rule1_one_request in E1.
    + unfold ret. intros H Hin Hup. inversion H; subst.
      destruct (@one_request_last _ w _ _ _ (nothing_sent w) E1 c e Hin Hup) as [Ho _].
      discriminate.
    + pose proof (@one_request_answered _ w _ _ _ (nothing_sent w) E1) as A1.
      unfold rules_from_2, bind at 1.
      destruct (rule2 w msg l1) as [[[r2|]|e2] l2] eqn:E2;
        apply rule2_one_request in E2.
      * unfold ret. intros H Hin Hup. inversion H; subst.
        destruct (@one_request_last _ w _ _ _ A1 E2 c e Hin Hup) as [Ho _]. discriminate.
      * pose proof (@one_request_answered _ w _ _ _ A1 E2) as A2.
        unfold bind at 1.
        destruct (rule3 w msg l2) as [[[r3|]|e3] l3] eqn:E3;
          apply rule3_one_request in E3;
          unfold ret; intros H Hin Hup; inversion H; subst;
          destruct (@one_request_last _ w _ _ _ A2 E3 c e Hin Hup) as [Ho Hl];
          try discriminate.
        inversion Ho; subst. split; [reflexivity | exact Hl].
      * intros H Hin Hup. inversion H; subst.
        destruct (@one_request_last _ w _ _ _ A1 E2 c e Hin Hup) as [Ho Hl].
        inversion Ho; subst. split; [reflexivity | exact Hl].
    + intros H Hin Hup. inversion H; subst.
      destruct (@one_request_last _ w _ _ _ (nothing_sent w) E1 c e Hin Hup) as [Ho Hl].
      inversion Ho; subst. split; [reflexivity | exact Hl].
Qed.

Lemma upstream_exception_propagates_witness :
  (fst (run (convert_currency down_world [("amount", "3")]))
   = Raise RequestException /\
   exists l, snd (run (convert_currency down_world [("amount", "3")]))
             = l ++ [Latest 3 "USD" "INR"]) /\
  (fst (run (chatbot down_world (message "usd to eur last 30 days")))
   = Raise RequestException /\
   exists l, snd (run (chatbot down_world (message "usd to eur last 30 days")))
             = l ++ [Latest 30 "DA" "YS"]) /\
  (fst (run (chatbot range_down_world (message "usd to eur last 30 days")))
   = Raise RequestException /\
   exists l, snd (run (chatbot range_down_world
                               (message "usd to eur last 30 days")))
             = l ++ [Between 739893 739923 "USD" "EUR"]).
Proof.
  pose proof (upstream_exception_propagates down_world) as (Hc & _ & Hb).
  pose proof (upstream_exception_propagates range_down_world) as (_ & _ & Hr).
  split; [|split].
  - apply (Hc [("amount", "3")] _ _ (Latest 3 "USD" "INR") RequestException);
      [apply surjective_pairing | vm_compute; tauto | reflexivity].
  - apply (Hb (message "usd to eur last 30 days") _ _
              (Latest 30 "DA" "YS") RequestException);
      [apply surjective_pairing | vm_compute; tauto | reflexivity].
  - apply (Hr (message "usd to eur last 30 days") _ _
              (Between 739893 739923 "USD" "EUR") RequestException);
      [apply surjective_pairing | vm_compute; tauto | reflexivity].
Defined.

(** ** Answers without a "rates" field *)

Lemma rule1_no_rates_none (w : world) (msg : string) (log : list api_call) :
  no_rates_field w ->
  (forall g, search conversion_re msg = Some g -> py_float w (group 1 g) <> None) ->
  exists log', rule1 w msg log = (Ok None, log').
Proof.
  intros Hno Hfloat. unfold rule1.
  destruct (search conversion_re msg) as [g|]; [|eexists; reflexivity].
  specialize (Hfloat g eq_refl). unfold float_of.
  destruct (py_float w (group 1 g)) as [a|]; [|contradiction].
  unfold bind, lift, call, ret.
  destruct (Hno (Latest a (normalize (group 2 g)) (normalize (group 3 g))))
    as (kv & -> & Hkv).
  rewrite (@has_rate_no_field kv _ Hkv). eexists; reflexivity.
Qed.

Lemma rule2_no_rates_none (w : world) (msg : string) (log : list api_call) :
  no_rates_field w -> exists log', rule2 w msg log = (Ok None, log').
Proof.
  intros Hno. unfold rule2.
  destruct (search date_re msg) as [g|]; [|eexists; reflexivity].
  unfold bind, lift, call, ret.
  destruct (Hno (OnDate (group 3 g) (upper (group 1 g)) (upper (group 2 g))))
    as (kv & -> & Hkv).
  rewrite (@has_rate_no_field kv _ Hkv). eexists; reflexivity.
Qed.

Lemma rule3_no_rates_none (w : world) (msg : string) (log : list api_call) :
  no_rates_field w -> (today w <= MAXYEAR_ordinal)%Z ->
  (forall g, search range_re msg = Some g ->
             (MINYEAR_ordinal <= today w - digits_value 0 (group 3 g))%Z) ->
  exists log', rule3 w msg log = (Ok None, log').
Proof.
  intros Hno Hmax Hdays. unfold rule3.
  destruct (search range_re msg) as [g|] eqn:Hs; [|eexists; reflexivity].
  specialize (Hdays g eq_refl).
  pose proof Hs as Hm. apply search_sound in Hm. destruct Hm as [t M].
  apply range_re_days in M. destruct M as (_ & Hd & Hl).
  destruct (@py_int_digits (group 3 g) Hd Hl) as [Hint Hpos].
  rewrite Hint. unfold bind, lift, call, ret.
  rewrite date_minus_days_ok;
    [|unfold MINYEAR_ordinal, MAXYEAR_ordinal in *; lia
     |exact Hdays
     |unfold MINYEAR_ordinal, MAXYEAR_ordinal in *; lia].
  destruct (Hno (Between (today w - digits_value 0 (group 3 g)) (today w)
                         (upper (group 1 g)) (upper (group 2 g))))
    as (kv & -> & Hkv).
  unfold py_in. rewrite Hkv. eexists; reflexivity.
Qed.

(** C5, as amended: when the answer of the upstream is an object without
    a "rates" field, /historical returns the error "No data available"
    (status 404) after its one request.  /chatbot makes no error of it:
    no rule replies, so that a reply, when the handler returns one, is
    the help text; and the handler does return the help text for an ASCII
    message whose amount, if rule 1 matches, is accepted by [float], and
    whose day count, if rule 3 matches, has at most 4300 digits and does
    not reach back before [date.min]. *)
Theorem no_rates_field_by_route (w : world) :
  (forall (a : args) (start_date : Z) (kv : list (string * json)),
      let request := Between start_date (today w)
                             (upper (args_get_str a "from" "USD"))
                             (upper (args_get_str a "to" "INR")) in
      start_of_range (today w) (lower (args_get_str a "range" "7d"))
      = Some (Ok start_date) ->
      upstream w request = Ok (JObj kv) ->
      assoc "rates" kv = None ->
      run (historical_data w a) = (Ok no_data, [request])) /\
  (no_rates_field w ->
   forall data r log, run (chatbot w data) = (Ok r, log) -> r = HelpReply) /\
  (no_rates_field w -> (today w <= MAXYEAR_ordinal)%Z ->
   forall s,
     sall is_ascii s = true ->
     (forall g, search conversion_re (strip (lower s)) = Some g ->
                py_float w (group 1 g) <> None) ->
     (forall g, search range_re (strip (lower s)) = Some g ->
                String.length (group 3 g) <= 4300 /\
                (MINYEAR_ordinal <= today w - digits_value 0 (group 3 g))%Z) ->
     exists log, run (chatbot w (message s)) = (Ok HelpReply, log)).
Proof.
  split; [|split].
  - intros a start_date kv. apply historical_no_rates_404.
  - intros Hno data r log. unfold run, chatbot, bind at 1, lift at 1.
    destruct (get_message data) as [msg|]; [|discriminate].
    unfold chatbot_on, bind at 1.
    destruct (rule1 w msg []) as [[[r1|]|e1] l1] eqn:E1; try discriminate.
    { exfalso. exact (@rule1_no_rates w msg [] l1 r1 Hno E1). }
    unfold rules_from_2, bind at 1.
    destruct (rule2 w msg l1) as [[[r2|]|e2] l2] eqn:E2; try discriminate.
    { exfalso. exact (@rule2_no_rates w msg l1 l2 r2 Hno E2). }
    unfold bind at 1.
    destruct (rule3 w msg l2) as [[[r3|]|e3] l3] eqn:E3; try discriminate.
    { exfalso. exact (@rule3_no_rates w msg l2 l3 r3 Hno E3). }
    unfold ret. intros H. now inversion H.
  - intros Hno Hmax s _ Hfloat Hdays.
    unfold run, chatbot. rewrite get_message_message.
    unfold bind at 1, lift at 1. unfold chatbot_on, bind at 1.
    destruct (@rule1_no_rates_none w (strip (lower s)) [] Hno Hfloat)
      as [l1 ->].
    unfold rules_from_2, bind at 1.
    destruct (@rule2_no_rates_none w (strip (lower s)) l1 Hno) as [l2 ->].
    unfold bind at 1.
    destruct (@rule3_no_rates_none w (strip (lower s)) l2 Hno Hmax
                (fun g Hg => proj2 (Hdays g Hg))) as [l3 ->].
    eexists. reflexivity.
Qed.

Lemma no_rates_field_by_route_witness :
  run (historical_data no_data_world [("from", "usd"); ("to", "xyz"); ("range", "30D")])
  = (Ok no_data, [Between 739893 739923 "USD" "XYZ"]) /\
  (forall data r log,
      run (chatbot no_data_world data) = (Ok r, log) -> r = HelpReply) /\
  (exists log,
      run (chatbot no_data_world (message "USD to EUR last 30 days"))
      = (Ok HelpReply, log)).
Proof.
  assert (Hno : no_rates_field no_data_world).
  { intros c. exists [("message", JStr "not found")]. split; reflexivity. }
  split; [|split].
  - apply (proj1 (no_rates_field_by_route no_data_world)
             [("from", "usd"); ("to", "xyz"); ("range", "30D")] 739893%Z
             [("message", JStr "not found")]); reflexivity.
  - exact (proj1 (proj2 (no_rates_field_by_route no_data_world)) Hno).
  - apply (proj2 (proj2 (no_rates_field_by_route no_data_world)) Hno).
    + vm_compute. discriminate.
    + reflexivity.
    + intros g Hg. vm_compute in Hg. injection Hg as <-.
      vm_compute. discriminate.
    + intros g Hg. vm_compute in Hg. injection Hg as <-.
      split; [simpl; lia | vm_compute; discriminate].
Defined.
